(** * Firestore -> JSON facade: the value normaliser and the query layer

    A shallow embedding of [main.py]: [to_jsonable], [doc_to_dict],
    [fetch_collection] and the two GET handlers, together with the parts of
    Python's [datetime] and [str] that these functions call.

    Conventions.
    - Python integers are [Z]; Python floats are IEEE doubles ([float]).
    - A [dict] is the list of its items in insertion order: that order is
      what a comprehension iterates over and what the response serialises.
    - Exceptions are values of [exn]; code that can raise returns [res]. *)

From Stdlib Require Import ZArith List String Ascii Bool Lia Floats.
From Stdlib Require Strings.Byte.
Import ListNotations.
Local Open Scope Z_scope.

Set Implicit Arguments.

(* ------------------------------------------------------------------ *)
(** * Exceptions *)

Inductive exn : Type :=
| OverflowError
| KeyError (key : string)
| HTTPException (status_code : Z) (detail : string)
| TypeError
  (* the [ValueError] of the JSON encoder, "Out of range float values are
     not JSON compliant" *)
| JSONValueError.

Inductive res (A : Type) : Type :=
| Ok (a : A)
| Raise (e : exn).

Arguments Ok {A} a.
Arguments Raise {A} e.

Definition bind {A B : Type} (m : res A) (k : A -> res B) : res B :=
  match m with
  | Ok a => k a
  | Raise e => Raise e
  end.

Declare Scope res_scope.
Delimit Scope res_scope with res.
Notation "x <- m ;; k" := (bind m (fun x => k))
  (at level 61, m at next level, right associativity) : res_scope.
Local Open Scope res_scope.

(** A comprehension [[f(x) for x in xs]]: elements are visited left to
    right and the first exception ends the evaluation. *)
Section Comprehension.
Variables A B : Type.
Variable f : A -> res B.

Fixpoint mapM (xs : list A) : res (list B) :=
  match xs with
  | [] => Ok []
  | x :: rest =>
      y <- f x ;;
      ys <- mapM rest ;;
      Ok (y :: ys)
  end.
End Comprehension.

(* ------------------------------------------------------------------ *)
(** * The proleptic Gregorian calendar of [datetime] *)

Module Calendar.

Definition MINYEAR : Z := 1.
Definition MAXYEAR : Z := 9999.
(** [date(9999, 12, 31).toordinal()] *)
Definition MAXORDINAL : Z := 3652059.

Definition is_leap (year : Z) : bool :=
  (year mod 4 =? 0) && (negb (year mod 100 =? 0) || (year mod 400 =? 0)).

Definition days_before_year (year : Z) : Z :=
  let y := year - 1 in
  y * 365 + y / 4 - y / 100 + y / 400.

Definition DAYS_IN_MONTH (month : Z) : Z :=
  match month with
  | 1 => 31 | 2 => 28 | 3 => 31 | 4 => 30 | 5 => 31 | 6 => 30
  | 7 => 31 | 8 => 31 | 9 => 30 | 10 => 31 | 11 => 30 | 12 => 31
  | _ => 0
  end.

Definition DAYS_BEFORE_MONTH (month : Z) : Z :=
  match month with
  | 1 => 0 | 2 => 31 | 3 => 59 | 4 => 90 | 5 => 120 | 6 => 151
  | 7 => 181 | 8 => 212 | 9 => 243 | 10 => 273 | 11 => 304 | 12 => 334
  | _ => 0
  end.

Definition days_in_month (year month : Z) : Z :=
  if (month =? 2) && is_leap year then 29 else DAYS_IN_MONTH month.

Definition days_before_month (year month : Z) : Z :=
  DAYS_BEFORE_MONTH month + (if (2 <? month) && is_leap year then 1 else 0).

Definition ymd2ord (year month day : Z) : Z :=
  days_before_year year + days_before_month year month + day.

Definition DI400Y : Z := 146097.
Definition DI100Y : Z := 36524.
Definition DI4Y : Z := 1461.

Definition ord2ymd (ordinal : Z) : Z * Z * Z :=
  let n := ordinal - 1 in
  let n400 := n / DI400Y in
  let n := n mod DI400Y in
  let year := n400 * 400 + 1 in
  let n100 := n / DI100Y in
  let n := n mod DI100Y in
  let n4 := n / DI4Y in
  let n := n mod DI4Y in
  let n1 := n / 365 in
  let n := n mod 365 in
  let year := year + n100 * 100 + n4 * 4 + n1 in
  if (n1 =? 4) || (n100 =? 4) then (year - 1, 12, 31)
  else
    let leapyear := (n1 =? 3) && (negb (n4 =? 24) || (n100 =? 3)) in
    let month := Z.shiftr (n + 50) 5 in
    let preceding :=
      DAYS_BEFORE_MONTH month + (if (2 <? month) && leapyear then 1 else 0) in
    if n <? preceding then
      let month := month - 1 in
      let preceding :=
        preceding
        - (DAYS_IN_MONTH month + (if (month =? 2) && leapyear then 1 else 0)) in
      (year, month, n - preceding + 1)
    else (year, month, n - preceding + 1).

End Calendar.

(* ------------------------------------------------------------------ *)
(** * [datetime] values *)

(** The date and time fields of a [datetime], without its zone.  [fold]
    tells the two readings of a repeated wall-clock hour apart. *)
Record wall : Type := Wall {
  year : Z;
  month : Z;
  day : Z;
  hour : Z;
  minute : Z;
  second : Z;
  microsecond : Z;
  fold : bool
}.

(** The class invariant of [datetime]: its constructor refuses anything
    else. *)
Definition wall_ok (w : wall) : bool :=
  (Calendar.MINYEAR <=? year w) && (year w <=? Calendar.MAXYEAR)
  && (1 <=? month w) && (month w <=? 12)
  && (1 <=? day w) && (day w <=? Calendar.days_in_month (year w) (month w))
  && (0 <=? hour w) && (hour w <=? 23)
  && (0 <=? minute w) && (minute w <=? 59)
  && (0 <=? second w) && (second w <=? 59)
  && (0 <=? microsecond w) && (microsecond w <=? 999999).

(** The fields alone, with [fold] at its default. *)
Definition clear_fold (w : wall) : wall :=
  Wall (year w) (month w) (day w) (hour w) (minute w) (second w)
       (microsecond w) false.

(** Offsets from UTC are whole seconds, as those of [ZoneInfo] and of
    [timezone.utc] are. [datetime] accepts an offset only strictly between
    minus and plus one day. *)
Definition offset_ok (seconds : Z) : bool :=
  (-86400 <? seconds) && (seconds <? 86400).

(** A [tzinfo] object: [tz_ident] stands for the identity of the object (the
    [is] of Python), [tz_utcoffset] and [tz_fromutc] are its two methods, on
    the fields of the [datetime] they receive. *)
Record tzinfo : Type := TzInfo {
  tz_ident : N;
  tz_utcoffset : wall -> Z;
  tz_fromutc : wall -> res wall;
  tz_range : forall w, offset_ok (tz_utcoffset w) = true
}.

Record datetime : Type := Datetime {
  dt_wall : wall;
  dt_tzinfo : option tzinfo
}.

Definition US_PER_SECOND : Z := 1000000.
Definition US_PER_DAY : Z := 86400 * US_PER_SECOND.

(** Microseconds from the start of day 0 of the calendar to the wall-clock
    reading [w]: the [timedelta] that [datetime.__add__] starts from. *)
Definition wall_us (w : wall) : Z :=
  ((Calendar.ymd2ord (year w) (month w) (day w) * 86400
    + hour w * 3600 + minute w * 60 + second w) * US_PER_SECOND)
  + microsecond w.

(** [datetime.__add__] with a [timedelta] of [delta_us] microseconds, on the
    fields; the result has [fold = 0]. *)
Definition add_timedelta (w : wall) (delta_us : Z) : res wall :=
  let total := wall_us w + delta_us in
  let days := total / US_PER_DAY in
  let seconds := (total mod US_PER_DAY) / US_PER_SECOND in
  let us := total mod US_PER_SECOND in
  let hh := seconds / 3600 in
  let rem := seconds mod 3600 in
  let mm := rem / 60 in
  let ss := rem mod 60 in
  if (0 <? days) && (days <=? Calendar.MAXORDINAL) then
    let '(y, m, d) := Calendar.ord2ymd days in
    Ok (Wall y m d hh mm ss us false)
  else Raise OverflowError.

(** [v.replace(tzinfo=tz)]: every field but the zone is kept. *)
Definition replace_tzinfo (v : datetime) (tz : tzinfo) : datetime :=
  {| dt_wall := dt_wall v; dt_tzinfo := Some tz |}.

(** [v.utcoffset()], in seconds. *)
Definition utcoffset (v : datetime) : option Z :=
  match dt_tzinfo v with
  | None => None
  | Some tz => Some (tz_utcoffset tz (dt_wall v))
  end.

(** [v.astimezone(tz)] for a receiver that carries the zone [mytz].
    Converting to the receiver's own zone object returns the receiver;
    otherwise the reading is moved to UTC and handed to [tz.fromutc].
    [to_jsonable] attaches a zone to a naive value before it converts, so
    the receiver always has one. *)
Definition astimezone (w : wall) (mytz tz : tzinfo) : res datetime :=
  if N.eqb (tz_ident tz) (tz_ident mytz) then
    Ok {| dt_wall := w; dt_tzinfo := Some mytz |}
  else
    utc <- add_timedelta w (- (tz_utcoffset mytz w * US_PER_SECOND)) ;;
    w' <- tz_fromutc tz utc ;;
    Ok {| dt_wall := w'; dt_tzinfo := Some tz |}.

(** The class [datetime.timezone]: a fixed offset. [fromutc] adds it. *)
Definition timezone (ident : N) (offset : Z) (H : offset_ok offset = true)
  : tzinfo :=
  {| tz_ident := ident;
     tz_utcoffset := fun _ => offset;
     tz_fromutc := fun utc => add_timedelta utc (offset * US_PER_SECOND);
     tz_range := fun _ => H |}.

(** [timezone.utc], the zone of every timestamp the store hands out. *)
Definition utc : tzinfo := timezone 1 0 eq_refl.

(* ------------------------------------------------------------------ *)
(** * [datetime.isoformat] *)

Local Open Scope string_scope.
Local Open Scope Z_scope.

(** The decimal digit of the units of [n]. *)
Definition digit (n : Z) : ascii :=
  match n mod 10 with
  | 0 => "0" | 1 => "1" | 2 => "2" | 3 => "3" | 4 => "4"
  | 5 => "5" | 6 => "6" | 7 => "7" | 8 => "8" | _ => "9"
  end%char.

(** ["%02d" % n], ["%04d" % n] and ["%06d" % n], for [n] within the width:
    the class invariant of [datetime] keeps every field there. *)
Definition d02 (n : Z) : string :=
  String (digit (n / 10)) (String (digit n) EmptyString).

Definition d04 (n : Z) : string :=
  String (digit (n / 1000)) (String (digit (n / 100)) (d02 n)).

Definition d06 (n : Z) : string :=
  String (digit (n / 100000)) (String (digit (n / 10000)) (d04 n)).

(** [_format_time] with [timespec='auto']: microseconds only when not 0. *)
Definition format_time (hh mm ss us : Z) : string :=
  d02 hh ++ ":" ++ d02 mm ++ ":" ++ d02 ss
  ++ (if us =? 0 then EmptyString else "." ++ d06 us).

(** [_format_offset]: sign, hours and minutes, and seconds when not 0. *)
Definition format_offset (off : option Z) : string :=
  match off with
  | None => EmptyString
  | Some off =>
      let sign := if off <? 0 then "-" else "+" in
      let a := Z.abs off in
      let hh := a / 3600 in
      let mm := (a mod 3600) / 60 in
      let ss := a mod 60 in
      sign ++ d02 hh ++ ":" ++ d02 mm
      ++ (if ss =? 0 then EmptyString else ":" ++ d02 ss)
  end.

Definition isoformat (v : datetime) : string :=
  let w := dt_wall v in
  (d04 (year w) ++ "-" ++ d02 (month w) ++ "-" ++ d02 (day w) ++ "T"
   ++ format_time (hour w) (minute w) (second w) (microsecond w))
  ++ format_offset (utcoffset v).

(* ------------------------------------------------------------------ *)
(** * ISO 8601 date-times with an offset

    A recogniser for the extended format
    [YYYY-MM-DDThh:mm:ss[.ffffff](+|-)hh:mm], which also checks the range of
    every field. It returns the fields it read and the offset in seconds. *)

Module ISO8601.

Definition digit_value (c : ascii) : option Z :=
  let n := Z.of_nat (nat_of_ascii c) in
  if (48 <=? n) && (n <=? 57) then Some (n - 48) else None.

Fixpoint read_digits (count : nat) (acc : Z) (s : string)
  : option (Z * string) :=
  match count with
  | O => Some (acc, s)
  | S count' =>
      match s with
      | String c rest =>
          match digit_value c with
          | Some d => read_digits count' (acc * 10 + d) rest
          | None => None
          end
      | EmptyString => None
      end
  end.

Definition read_char (c : ascii) (s : string) : option string :=
  match s with
  | String c' rest => if Ascii.eqb c' c then Some rest else None
  | EmptyString => None
  end.

Definition obind {A B : Type} (m : option A) (k : A -> option B)
  : option B :=
  match m with
  | Some a => k a
  | None => None
  end.

Notation "'let*' p := m 'in' k" := (obind m (fun p => k))
  (at level 10, p pattern, m at level 100, k at level 200).

(** The decimal fraction of the seconds, in microseconds; absent is 0. *)
Definition read_fraction (s : string) : option (Z * string) :=
  match s with
  | String "." rest => read_digits 6 0 rest
  | _ => Some (0, s)
  end.

(** The offset, which ends the string. *)
Definition read_offset (s : string) : option Z :=
  match s with
  | String c rest =>
      let* sign :=
        (if Ascii.eqb c "+" then Some 1
         else if Ascii.eqb c "-" then Some (-1) else None) in
      let* (hh, rest) := read_digits 2 0 rest in
      let* rest := read_char ":" rest in
      let* (mm, rest) := read_digits 2 0 rest in
      match rest with
      | EmptyString =>
          if (hh <=? 23) && (mm <=? 59)
          then Some (sign * (hh * 3600 + mm * 60))
          else None
      | String _ _ => None
      end
  | EmptyString => None
  end.

Definition parse (s : string) : option (wall * Z) :=
  let* (y, s) := read_digits 4 0 s in
  let* s := read_char "-" s in
  let* (mo, s) := read_digits 2 0 s in
  let* s := read_char "-" s in
  let* (d, s) := read_digits 2 0 s in
  let* s := read_char "T" s in
  let* (hh, s) := read_digits 2 0 s in
  let* s := read_char ":" s in
  let* (mi, s) := read_digits 2 0 s in
  let* s := read_char ":" s in
  let* (ss, s) := read_digits 2 0 s in
  let* (us, s) := read_fraction s in
  let* off := read_offset s in
  let w := Wall y mo d hh mi ss us false in
  if wall_ok w then Some (w, off) else None.

(** The instant a parsed date-time denotes, in microseconds on the UTC
    time line. *)
Definition instant_us (p : wall * Z) : Z :=
  wall_us (fst p) - snd p * US_PER_SECOND.

End ISO8601.

(** The instant an aware [datetime] denotes, on the same time line. *)
Definition instant_us (w : wall) (tz : tzinfo) : Z :=
  wall_us w - tz_utcoffset tz w * US_PER_SECOND.

(* ------------------------------------------------------------------ *)
(** * [str.strip] *)

Definition DQUOTE : ascii := "034"%char.

Fixpoint lstrip (chars : list ascii) (s : list ascii) : list ascii :=
  match s with
  | [] => []
  | c :: rest =>
      if existsb (Ascii.eqb c) chars then lstrip chars rest else s
  end.

Definition rstrip (chars : list ascii) (s : list ascii) : list ascii :=
  rev (lstrip chars (rev s)).

(** [s.strip(chars)]: every leading and every trailing character that
    occurs in [chars] is removed. *)
Definition strip (chars : string) (s : string) : string :=
  let cs := list_ascii_of_string chars in
  string_of_list_ascii (rstrip cs (lstrip cs (list_ascii_of_string s))).

(** The reading "exactly one pair of enclosing double quotes is removed,
    if present", written from the words of the specification for
    comparison with [strip]. *)
Definition strip_one_pair (s : string) : string :=
  match list_ascii_of_string s with
  | c :: rest =>
      match rev rest with
      | c' :: inner =>
          if Ascii.eqb c DQUOTE && Ascii.eqb c' DQUOTE
          then string_of_list_ascii (rev inner)
          else s
      | [] => s
      end
  | [] => s
  end.

(* ------------------------------------------------------------------ *)
(** * Python values *)

(** The values a document field can hold and the other kinds that
    [to_jsonable] tells apart.  [VDatetimeWithNanoseconds] is the store's
    timestamp class, a subclass of [datetime] with one more field;
    [VBytes], [VDocumentReference] and [VTuple] are kinds that none of the
    [isinstance] tests recognises.  [VNpInteger] is a scalar of one of the
    integer types of the numeric library ([int8] to [uint64]) with its
    value, [VNpFloating] and [VNpBool] likewise; [np.timedelta64], which
    passes the test for [np.integer] and on which [int(v)] raises
    [TypeError], has no value here. *)
Unset Elimination Schemes.
Inductive value : Type :=
| VNone
| VBool (b : bool)
| VInt (n : Z)
| VFloat (x : float)
| VStr (s : string)
| VBytes (b : list Byte.byte)
| VDocumentReference (path : string)
| VTuple (xs : list value)
| VDatetimeWithNanoseconds (dt : datetime) (nanosecond : Z)
| VDatetime (dt : datetime)
| VGeoPoint (latitude longitude : float)
| VList (xs : list value)
| VDict (items : list (string * value))
| VNpInteger (n : Z)
| VNpFloating (x : float)
| VNpBool (b : bool).
Set Elimination Schemes.

Definition dict : Type := list (string * value).

(** [d.get(k)] *)
Fixpoint dict_get (d : dict) (k : string) : option value :=
  match d with
  | [] => None
  | (k', v) :: rest => if String.eqb k' k then Some v else dict_get rest k
  end.

(** [d[k] = v]: an existing key keeps its place, a new one goes last. *)
Fixpoint dict_set (d : dict) (k : string) (v : value) : dict :=
  match d with
  | [] => [(k, v)]
  | (k', v') :: rest =>
      if String.eqb k' k then (k', v) :: rest
      else (k', v') :: dict_set rest k v
  end.

Definition dict_keys (d : dict) : list string := map fst d.

(** [{k: f(val) for k, val in items}] *)
Section DictComprehension.
Variable f : value -> res value.

Definition dict_comprehension (items : dict) : res dict :=
  mapM (fun kv : string * value =>
          let (k, val) := kv in r <- f val ;; Ok (k, r)) items.
End DictComprehension.

(** The types of JSON: string, number, boolean, null, list and mapping, at
    every depth. *)
Fixpoint json_only (v : value) : bool :=
  match v with
  | VNone | VBool _ | VInt _ | VFloat _ | VStr _ => true
  | VList xs => forallb json_only xs
  | VDict items => forallb (fun kv => json_only (snd kv)) items
  | _ => false
  end.

(** The kinds [to_jsonable] has an [isinstance] test for. *)
Definition recognized (v : value) : bool :=
  match v with
  | VDatetimeWithNanoseconds _ _ | VDatetime _ | VGeoPoint _ _
  | VList _ | VDict _
  | VNpInteger _ | VNpFloating _ | VNpBool _ => true
  | _ => false
  end.

(** Field values as section 3 of the specification lists them: strings,
    numbers, booleans, null, nested mappings, lists, timestamps (of the
    store's class or plain [datetime]), geo-points and the numeric library's
    scalars. *)
Fixpoint document_value (v : value) : bool :=
  match v with
  | VNone | VBool _ | VInt _ | VFloat _ | VStr _ => true
  | VDatetimeWithNanoseconds _ _ | VDatetime _ | VGeoPoint _ _ => true
  | VNpInteger _ | VNpFloating _ | VNpBool _ => true
  | VList xs => forallb document_value xs
  | VDict items => forallb (fun kv => document_value (snd kv)) items
  | VBytes _ | VDocumentReference _ | VTuple _ => false
  end.

(** Whether normalising [v] has to convert a plain [datetime] that carries
    a zone: the one place where [to_jsonable] does date arithmetic.  Tuples
    are not looked into, as the normaliser does not look into them. *)
Fixpoint converts_aware_datetime (v : value) : bool :=
  match v with
  | VDatetime dt =>
      match dt_tzinfo dt with
      | Some _ => true
      | None => false
      end
  | VList xs => existsb converts_aware_datetime xs
  | VDict items => existsb (fun kv => converts_aware_datetime (snd kv)) items
  | _ => false
  end.

(** Values in which no timestamp, geo-point or numeric-library scalar is
    left at a place the normaliser reaches, that is outside tuples. *)
Fixpoint normalized (v : value) : bool :=
  match v with
  | VDatetimeWithNanoseconds _ _ | VDatetime _ | VGeoPoint _ _ => false
  | VNpInteger _ | VNpFloating _ | VNpBool _ => false
  | VList xs => forallb normalized xs
  | VDict items => forallb (fun kv => normalized (snd kv)) items
  | _ => true
  end.

(* ------------------------------------------------------------------ *)
(** * The normaliser *)

Section Normalizer.

(** [ZoneInfo("America/Santiago")]: the rules of the zone come from the
    system's time zone database. *)
Variable LOCAL_TZ : tzinfo.

Fixpoint to_jsonable (v : value) : res value :=
  match v with
  | VDatetimeWithNanoseconds dt _ =>
      Ok (VStr (isoformat (replace_tzinfo dt LOCAL_TZ)))
  | VDatetime dt =>
      let mytz :=
        match dt_tzinfo dt with
        | None => LOCAL_TZ
        | Some tz => tz
        end in
      local <- astimezone (dt_wall dt) mytz LOCAL_TZ ;;
      Ok (VStr (isoformat local))
  | VGeoPoint latitude longitude =>
      Ok (VDict [("latitude", VFloat latitude);
                 ("longitude", VFloat longitude)])
  | VList xs =>
      ys <- mapM to_jsonable xs ;;
      Ok (VList ys)
  | VDict items =>
      items' <- dict_comprehension to_jsonable items ;;
      Ok (VDict items')
  | VNpInteger n => Ok (VInt n)
  | VNpFloating x => Ok (VFloat x)
  | VNpBool b => Ok (VBool b)
  | _ => Ok v
  end.

End Normalizer.

(* ------------------------------------------------------------------ *)
(** * The document store *)

Module Firestore.

(** A [DocumentSnapshot]: [to_dict] is [None] for a document that does
    not exist. *)
Record DocumentSnapshot : Type := {
  id : string;
  to_dict : option dict
}.

(** [db.collection(name).where(field_path, op_string, value)] *)
Record Query : Type := {
  collection : string;
  field_path : string;
  op_string : string;
  filter_value : string
}.

(** The client: [stream] gives the documents that match a query, in the
    order of the store's scan. *)
Definition Client : Type := Query -> list DocumentSnapshot.

End Firestore.

Import Firestore (DocumentSnapshot, Query, Client).

Record collection_config : Type := {
  name : string;
  filter_field : string
}.

Definition COLLECTIONS : list (string * collection_config) :=
  [ ("campana",  {| name := "campana";  filter_field := "campanaID" |});
    ("estacion", {| name := "Estacion"; filter_field := "campanaID" |}) ].

(** [COLLECTIONS[key]] *)
Fixpoint getitem (table : list (string * collection_config)) (key : string)
  : res collection_config :=
  match table with
  | [] => Raise (KeyError key)
  | (k, cfg) :: rest => if String.eqb k key then Ok cfg else getitem rest key
  end.

(** A [JSONResponse]; its status code is 200 unless given. *)
Record JSONResponse : Type := {
  status_code : Z;
  content : list dict
}.

(** [json.dumps(v, allow_nan=False)], as [JSONResponse] calls it: the text
    is not modelled, the exception is.  The encoder writes null, booleans,
    integers, strings, finite floats, lists, tuples and mappings with string
    keys, in the order of the value; it raises [ValueError] at the first
    NaN or infinity and [TypeError] at the first value of another type.
    The scalars of the numeric library are refused here with the other
    types; [np.float64] alone, which is a [float], the encoder would write.
    The normaliser leaves no such scalar in a document but inside a tuple,
    and no property below is about responses that hold one. *)
Fixpoint json_dumps (v : value) : res unit :=
  match v with
  | VNone | VBool _ | VInt _ | VStr _ => Ok tt
  | VFloat x => if PrimFloat.is_finite x then Ok tt else Raise JSONValueError
  | VList xs | VTuple xs =>
      written <- mapM json_dumps xs ;;
      Ok tt
  | VDict items =>
      written <- mapM (fun kv : string * value => json_dumps (snd kv)) items ;;
      Ok tt
  | _ => Raise TypeError
  end.

(** [JSONResponse(content)]: the constructor renders the body, so that it
    raises what the encoder raises. *)
Definition new_JSONResponse (content : list dict) : res JSONResponse :=
  rendered <- json_dumps (VList (map VDict content)) ;;
  Ok {| status_code := 200; content := content |}.

(** Values of JSON types whose floats are finite: what the encoder writes
    for sure. *)
Fixpoint json_finite (v : value) : bool :=
  match v with
  | VNone | VBool _ | VInt _ | VStr _ => true
  | VFloat x => PrimFloat.is_finite x
  | VList xs => forallb json_finite xs
  | VDict items => forallb (fun kv => json_finite (snd kv)) items
  | _ => false
  end.

(** Every float that the normaliser would leave in its result is finite:
    the floats, the coordinates of geo-points and the floating scalars of
    the numeric library, through lists and mappings. *)
Fixpoint finite_numbers (v : value) : bool :=
  match v with
  | VFloat x | VNpFloating x => PrimFloat.is_finite x
  | VGeoPoint latitude longitude =>
      PrimFloat.is_finite latitude && PrimFloat.is_finite longitude
  | VList xs => forallb finite_numbers xs
  | VDict items => forallb (fun kv => finite_numbers (snd kv)) items
  | _ => true
  end.

(** The field values of section 3 that the store's decoder yields: null,
    booleans, integers, floats, strings, its own timestamps, geo-points,
    lists and mappings; neither bytes nor references, which it yields too
    and section 3 leaves out. *)
Fixpoint store_document_value (v : value) : bool :=
  match v with
  | VNone | VBool _ | VInt _ | VFloat _ | VStr _ => true
  | VDatetimeWithNanoseconds _ _ | VGeoPoint _ _ => true
  | VList xs => forallb store_document_value xs
  | VDict items => forallb (fun kv => store_document_value (snd kv)) items
  | _ => false
  end.

Section Service.

Variable LOCAL_TZ : tzinfo.
Variable db : Client.

Definition doc_to_dict (doc : DocumentSnapshot) : res dict :=
  (* [doc.to_dict() or {}]: [None] and the empty dict are both falsy *)
  let fields :=
    match Firestore.to_dict doc with
    | Some d => d
    | None => []
    end in
  data <- dict_comprehension (to_jsonable LOCAL_TZ) fields ;;
  Ok (dict_set data "id" (VStr (Firestore.id doc))).

(** The query that [fetch_collection] builds. *)
Definition col_ref (key campana_id : string) : res Query :=
  cfg <- getitem COLLECTIONS key ;;
  Ok {| Firestore.collection := name cfg;
        Firestore.field_path := filter_field cfg;
        Firestore.op_string := "==";
        Firestore.filter_value := strip (String DQUOTE EmptyString) campana_id |}.

Definition fetch_collection (key campana_id : string) : res (list dict) :=
  q <- col_ref key campana_id ;;
  mapM doc_to_dict (db q).

Definition health : dict := [("ok", VBool true)].

Definition get_campana (campana_id : string) : res JSONResponse :=
  items <- fetch_collection "campana" campana_id ;;
  match items with
  | [] => Raise (HTTPException 404
                   "Sin documentos en 'campana' para ese campana_id.")
  | _ :: _ => new_JSONResponse items
  end.

Definition get_estacion (campana_id : string) : res JSONResponse :=
  items <- fetch_collection "estacion" campana_id ;;
  match items with
  | [] => Raise (HTTPException 404
                   "Sin documentos en 'Estacion' para ese campana_id.")
  | _ :: _ => new_JSONResponse items
  end.

End Service.

(** [doc.to_dict() or {}], the fields [doc_to_dict] goes through. *)
Definition fields_or_empty (doc : DocumentSnapshot) : dict :=
  match Firestore.to_dict doc with
  | Some d => d
  | None => []
  end.

(** What the framework answers for the outcome of a handler: the response's
    own status, the status of a raised [HTTPException], and 500 for any
    other exception. *)
Definition http_status (outcome : res JSONResponse) : Z :=
  match outcome with
  | Ok r => status_code r
  | Raise (HTTPException code _) => code
  | Raise _ => 500
  end.

(* ------------------------------------------------------------------ *)
(** * Concrete zones, values and stores for the examples *)

(** A zone three hours behind UTC all year: the offset America/Santiago has
    in the southern summer. *)
Definition utc_minus_3 : tzinfo := timezone 2 (-10800) eq_refl.

(** A zone one hour ahead of UTC all year. *)
Definition utc_plus_1 : tzinfo := timezone 3 3600 eq_refl.

(** A zone 4 h 42 min 45 s behind UTC: the offset America/Santiago has for
    the readings of the year 1900, its local mean time. *)
Definition santiago_1900 : tzinfo := timezone 4 (-16965) eq_refl.

(** 2024-01-15 12:00:00 *)
Definition noon : wall := Wall 2024 1 15 12 0 0 0 false.

(** 1900-01-15 12:00:00 *)
Definition noon_1900 : wall := Wall 1900 1 15 12 0 0 0 false.

(** 0001-01-01 00:00:00, the first reading a [datetime] can hold. *)
Definition first_reading : wall := Wall 1 1 1 0 0 0 0 false.

(** A store with one campaign document and no station document. *)
Definition sample_doc : DocumentSnapshot :=
  {| Firestore.id := "doc1";
     Firestore.to_dict :=
       Some [ ("campanaID", VStr "XYZ");
              ("nombre", VStr "Test");
              ("creado", VDatetimeWithNanoseconds (Datetime noon (Some utc)) 0) ] |}.

Definition sample_db : Client :=
  fun q =>
    if String.eqb (Firestore.collection q) "campana"
       && String.eqb (Firestore.field_path q) "campanaID"
       && String.eqb (Firestore.filter_value q) "XYZ"
    then [sample_doc] else [].

(** A document that has a stored field named ["id"]. *)
Definition doc_with_id_field : DocumentSnapshot :=
  {| Firestore.id := "doc2";
     Firestore.to_dict := Some [ ("id", VInt 7); ("nombre", VStr "Test") ] |}.

(** A document with a field of bytes, one with a float that is not a
    number, and a store that answers any query with both. *)
Definition doc_with_bytes : DocumentSnapshot :=
  {| Firestore.id := "doc5";
     Firestore.to_dict := Some [ ("campanaID", VStr "XYZ");
                                 ("firma", VBytes [Byte.x00; Byte.x01]) ] |}.

Definition doc_with_nan : DocumentSnapshot :=
  {| Firestore.id := "doc6";
     Firestore.to_dict := Some [ ("campanaID", VStr "XYZ");
                                 ("caudal", VFloat PrimFloat.nan) ] |}.

Definition bytes_db : Client := fun _ => [doc_with_bytes].

Definition nan_db : Client := fun _ => [doc_with_nan].

(** Documents without data: one that does not exist, one with no field. *)
Definition missing_doc : DocumentSnapshot :=
  {| Firestore.id := "doc3"; Firestore.to_dict := None |}.

Definition empty_doc : DocumentSnapshot :=
  {| Firestore.id := "doc4"; Firestore.to_dict := Some [] |}.

(** [s] between a pair of double quotes. *)
Definition quoted (s : string) : string :=
  String DQUOTE (s ++ String DQUOTE EmptyString).

(** A nested field value with a timestamp, a geo-point and scalars of the
    numeric library. *)
Definition sample_value : value :=
  VList [ VDatetimeWithNanoseconds (Datetime noon (Some utc)) 123000;
          VDict [ ("pos", VGeoPoint (-33.5)%float (-70.75)%float);
                  ("n", VNpInteger 3);
                  ("ok", VNpBool true);
                  ("tags", VList [VStr "a"; VNone; VNpFloating 0.5%float]) ] ].

(* ------------------------------------------------------------------ *)
(** * Start-up: [init_firebase] *)

(** A Python [str] as the list of its code points. *)
Definition pystr : Type := list N.

(** [c.isspace()]: the white space of Unicode and the separators 0x1c to
    0x1f. *)
Definition is_space (c : N) : bool :=
  (((9 <=? c) && (c <=? 13)) || ((28 <=? c) && (c <=? 32))
   || (c =? 133) || (c =? 160) || (c =? 5760)
   || ((8192 <=? c) && (c <=? 8202))
   || (c =? 8232) || (c =? 8233) || (c =? 8239) || (c =? 8287)
   || (c =? 12288))%N.

Fixpoint lstrip_space (s : pystr) : pystr :=
  match s with
  | [] => []
  | c :: rest => if is_space c then lstrip_space rest else s
  end.

(** [s.strip()] *)
Definition strip_space (s : pystr) : pystr :=
  rev (lstrip_space (rev (lstrip_space s))).

(** The name [initialize_app] gives an application by default. *)
Definition DEFAULT_APP_NAME : string := "[DEFAULT]".

Section Startup.

(** A credential, what goes wrong when one is read, and the reading itself:
    [credentials.Certificate(json.loads(base64.b64decode(b64)))]. *)
Variable credential : Type.
Variable load_error : Type.
Variable load_certificate : pystr -> credential + load_error.

Inductive startup_exn : Type :=
| RuntimeError (message : string)
| ValueError
| LoadError (e : load_error).

Inductive startup (A : Type) : Type :=
| Started (a : A)
| Failed (e : startup_exn).

(** [firebase_admin._apps]: the applications by name. *)
Definition apps : Type := list (string * credential).

(** [firebase_admin.initialize_app(cred)]: a second default application is
    refused. *)
Definition initialize_app (registry : apps) (cred : credential)
  : startup apps :=
  if existsb (fun entry => String.eqb (fst entry) DEFAULT_APP_NAME) registry
  then Failed apps ValueError
  else Started (registry ++ [(DEFAULT_APP_NAME, cred)])%list.

(** [os.getenv(name, default)] *)
Definition getenv (environ : string -> option pystr) (name : string)
  (default : pystr) : pystr :=
  match environ name with
  | Some v => v
  | None => default
  end.

Definition init_firebase (environ : string -> option pystr) (registry : apps)
  : startup apps :=
  match registry with
  | _ :: _ => Started registry
  | [] =>
      let b64 := strip_space (getenv environ "FIREBASE_KEY_B64" []) in
      match b64 with
      | [] =>
          Failed apps
            (RuntimeError
               "❌  FIREBASE_KEY_B64 no está definida en las variables de entorno.")
      | _ :: _ =>
          match load_certificate b64 with
          | inl cred => initialize_app registry cred
          | inr e => Failed apps (LoadError e)
          end
      end
  end.

End Startup.

(* ------------------------------------------------------------------ *)
(** * [datetime] arithmetic, for the proofs *)

(** The month and the day of day [n] of a year, counted from 0, the way
    [Calendar.ord2ymd] finds them. *)
Definition month_day (n : Z) (leapyear : bool) : Z * Z :=
  let month := Z.shiftr (n + 50) 5 in
  let preceding :=
    Calendar.DAYS_BEFORE_MONTH month
    + (if (2 <? month) && leapyear then 1 else 0) in
  if n <? preceding then
    let month := month - 1 in
    let preceding :=
      preceding
      - (Calendar.DAYS_IN_MONTH month
         + (if (month =? 2) && leapyear then 1 else 0)) in
    (month, n - preceding + 1)
  else (month, n - preceding + 1).

(** [month_day] gives a month, a day of that month, and the right count of
    days before it. *)
Definition month_day_ok (leapyear : bool) (n : Z) : bool :=
  let (m, d) := month_day n leapyear in
  (1 <=? m) && (m <=? 12) && (1 <=? d)
  && (d <=? Calendar.DAYS_IN_MONTH m + (if (m =? 2) && leapyear then 1 else 0))
  && (Calendar.DAYS_BEFORE_MONTH m
      + (if (2 <? m) && leapyear then 1 else 0) + d =? n + 1).

(** [p] holds of the [count] integers from [start] on. *)
Fixpoint all_from (p : Z -> bool) (count : nat) (start : Z) : bool :=
  match count with
  | O => true
  | S count' => p start && all_from p count' (start + 1)
  end.

(** What [datetime] expects of [tz.fromutc]: the reading it returns, taken
    in the zone, is the instant of the UTC reading it was given. *)
Definition fromutc_sound (tz : tzinfo) : Prop :=
  forall u w,
    tz_fromutc tz u = Ok w ->
    wall_us w - tz_utcoffset tz w * US_PER_SECOND = wall_us u.

(** An environment whose key is white space only, one with a key, and a
    reading of certificates that takes any text. *)
Definition blank_environ : string -> option pystr :=
  fun name =>
    if String.eqb name "FIREBASE_KEY_B64" then Some [32; 9; 10]%N else None.

Definition keyed_environ : string -> option pystr :=
  fun name =>
    if String.eqb name "FIREBASE_KEY_B64" then Some [32; 101; 121; 10]%N
    else None.

Definition take_any (b64 : pystr) : pystr + unit := inl b64.

(* ================================================================== *)
(** * Properties *)

(** ** Induction on values, through lists and dict items *)

Section ValueInduction.
Variable P : value -> Prop.
Hypothesis HNone : P VNone.
Hypothesis HBool : forall b, P (VBool b).
Hypothesis HInt : forall n, P (VInt n).
Hypothesis HFloat : forall x, P (VFloat x).
Hypothesis HStr : forall s, P (VStr s).
Hypothesis HBytes : forall b, P (VBytes b).
Hypothesis HRef : forall p, P (VDocumentReference p).
Hypothesis HTuple : forall xs, Forall P xs -> P (VTuple xs).
Hypothesis HStamp : forall dt ns, P (VDatetimeWithNanoseconds dt ns).
Hypothesis HDatetime : forall dt, P (VDatetime dt).
Hypothesis HGeo : forall lat lon, P (VGeoPoint lat lon).
Hypothesis HList : forall xs, Forall P xs -> P (VList xs).
Hypothesis HDict :
  forall items, Forall (fun kv => P (snd kv)) items -> P (VDict items).
Hypothesis HNpInteger : forall n, P (VNpInteger n).
Hypothesis HNpFloating : forall x, P (VNpFloating x).
Hypothesis HNpBool : forall b, P (VNpBool b).

Lemma value_ind : forall v, P v.
Proof.
  fix IH 1.
  intros [ | b | n | x | s | b | p | xs | dt ns | dt | lat lon
         | xs | items | n | x | b ];
    [ apply HNone | apply HBool | apply HInt | apply HFloat | apply HStr
    | apply HBytes | apply HRef | | apply HStamp | apply HDatetime
    | apply HGeo | | | apply HNpInteger | apply HNpFloating
    | apply HNpBool ].
  - apply HTuple.
    exact ((fix all (l : list value) : Forall P l :=
              match l with
              | [] => Forall_nil P
              | x :: l' => Forall_cons x (IH x) (all l')
              end) xs).
  - apply HList.
    exact ((fix all (l : list value) : Forall P l :=
              match l with
              | [] => Forall_nil P
              | x :: l' => Forall_cons x (IH x) (all l')
              end) xs).
  - apply HDict.
    exact ((fix all (l : list (string * value))
              : Forall (fun kv => P (snd kv)) l :=
              match l with
              | [] => Forall_nil _
              | kv :: l' => Forall_cons kv (IH (snd kv)) (all l')
              end) items).
Qed.
End ValueInduction.

(** ** Comprehensions *)

Section ComprehensionFacts.
Variables A B : Type.
Variable f : A -> res B.

Lemma mapM_Ok_inv (x : A) (rest : list A) (out : list B) :
  mapM f (x :: rest) = Ok out ->
  exists y ys, f x = Ok y /\ mapM f rest = Ok ys /\ out = y :: ys.
Proof.
  simpl. destruct (f x) as [y | e]; simpl; [ | discriminate ].
  destruct (mapM f rest) as [ys | e]; simpl; [ | discriminate ].
  intros [= <-]. now exists y, ys.
Qed.

Lemma mapM_length (xs : list A) :
  forall out, mapM f xs = Ok out -> List.length out = List.length xs.
Proof.
  induction xs as [ | x rest IH ]; intros out H.
  - injection H as <-. reflexivity.
  - apply mapM_Ok_inv in H as (y & ys & _ & Hrest & ->).
    simpl. f_equal. now apply IH.
Qed.

Lemma mapM_total (xs : list A) :
  Forall (fun x => exists y, f x = Ok y) xs -> exists ys, mapM f xs = Ok ys.
Proof.
  induction 1 as [ | x rest [y Hy] _ [ys Hys] ].
  - now exists [].
  - exists (y :: ys). simpl. now rewrite Hy, Hys.
Qed.

Lemma mapM_forallb (p : B -> bool) (xs : list A) :
  Forall (fun x => forall y, f x = Ok y -> p y = true) xs ->
  forall ys, mapM f xs = Ok ys -> forallb p ys = true.
Proof.
  induction 1 as [ | x rest Hx _ IH ]; intros out H.
  - injection H as <-. reflexivity.
  - apply mapM_Ok_inv in H as (y & ys & Hy & Hrest & ->).
    simpl. now rewrite (Hx _ Hy), (IH _ Hrest).
Qed.
End ComprehensionFacts.

(** A comprehension whose function fixes each of its own results gives a
    list that it maps to itself. *)
Lemma mapM_idempotent (A : Type) (f : A -> res A) (xs : list A) :
  Forall (fun x => forall y, f x = Ok y -> f y = Ok y) xs ->
  forall ys, mapM f xs = Ok ys -> mapM f ys = Ok ys.
Proof.
  induction 1 as [ | x rest Hx _ IH ]; intros out H.
  - injection H as <-. reflexivity.
  - apply mapM_Ok_inv in H as (y & ys & Hy & Hrest & ->).
    simpl. rewrite (Hx _ Hy), (IH _ Hrest). reflexivity.
Qed.

Lemma dict_comprehension_keys (f : value -> res value) (items : dict) :
  forall out, dict_comprehension f items = Ok out ->
  dict_keys out = dict_keys items.
Proof.
  unfold dict_comprehension.
  induction items as [ | [k v] rest IH ]; intros out H.
  - injection H as <-. reflexivity.
  - apply mapM_Ok_inv in H as (y & ys & Hy & Hrest & ->).
    destruct (f v) as [r | e]; simpl in Hy; [ | discriminate ].
    injection Hy as <-. simpl. f_equal. now apply IH.
Qed.

Lemma dict_comprehension_get (f : value -> res value) (items : dict) :
  forall out k, dict_comprehension f items = Ok out ->
  match dict_get items k with
  | Some v => exists r, f v = Ok r /\ dict_get out k = Some r
  | None => dict_get out k = None
  end.
Proof.
  unfold dict_comprehension.
  induction items as [ | [k' v] rest IH ]; intros out k H.
  - injection H as <-. reflexivity.
  - apply mapM_Ok_inv in H as (y & ys & Hy & Hrest & ->).
    destruct (f v) as [r | e] eqn:Hf; simpl in Hy; [ | discriminate ].
    injection Hy as <-. simpl.
    destruct (String.eqb k' k).
    + now exists r.
    + now apply IH.
Qed.

(** ** The normaliser *)

Section NormalizerFacts.
Variable LOCAL_TZ : tzinfo.

Local Abbreviation normalize := (to_jsonable LOCAL_TZ).

Lemma to_jsonable_list (xs : list value) :
  normalize (VList xs) = (ys <- mapM normalize xs ;; Ok (VList ys)).
Proof. reflexivity. Qed.

Lemma to_jsonable_dict (items : dict) :
  normalize (VDict items)
  = (items' <- dict_comprehension normalize items ;; Ok (VDict items')).
Proof. reflexivity. Qed.

Lemma to_jsonable_datetime (dt : datetime) :
  normalize (VDatetime dt)
  = (local <- astimezone (dt_wall dt)
                (match dt_tzinfo dt with None => LOCAL_TZ | Some tz => tz end)
                LOCAL_TZ ;;
     Ok (VStr (isoformat local))).
Proof. reflexivity. Qed.

(** Every result of the normaliser is one of its fixed points. *)
Lemma to_jsonable_fixes_results (v : value) :
  forall r, normalize v = Ok r -> normalize r = Ok r.
Proof.
  induction v as [ | b | n | x | s | b | p | xs IH | dt ns | dt | lat lon
                 | xs IH | items IH | n | x | b ] using value_ind;
    intros r H;
    try (injection H as <-; reflexivity).
  - (* datetime *)
    rewrite to_jsonable_datetime in H.
    destruct (astimezone _ _ _) as [local | e]; simpl in H; [ | discriminate ].
    injection H as <-. reflexivity.
  - (* list *)
    rewrite to_jsonable_list in H.
    destruct (mapM normalize xs) as [ys | e] eqn:Hys; simpl in H;
      [ | discriminate ].
    injection H as <-.
    rewrite to_jsonable_list, (mapM_idempotent normalize IH Hys). reflexivity.
  - (* dict *)
    rewrite to_jsonable_dict in H.
    destruct (dict_comprehension normalize items) as [out | e] eqn:Hout;
      simpl in H; [ | discriminate ].
    injection H as <-.
    rewrite to_jsonable_dict.
    unfold dict_comprehension in *.
    erewrite mapM_idempotent; [ reflexivity | | exact Hout ].
    clear Hout out.
    induction IH as [ | [k v] rest Hv _ IHrest ]; constructor; [ | exact IHrest ].
    intros [k' r]. simpl in Hv. simpl.
    destruct (normalize v) as [r' | e] eqn:Hr; simpl; [ | discriminate ].
    intros [= <- <-]. rewrite (Hv _ eq_refl). reflexivity.
Qed.

(** The results have JSON types only, for the field values of section 3. *)
Lemma to_jsonable_document_value (v : value) :
  document_value v = true ->
  forall r, normalize v = Ok r -> json_only r = true.
Proof.
  induction v as [ | b | n | x | s | b | p | xs IH | dt ns | dt | lat lon
                 | xs IH | items IH | n | x | b ] using value_ind;
    intros Hdoc r H;
    try discriminate Hdoc;
    try (injection H as <-; reflexivity).
  - (* datetime *)
    rewrite to_jsonable_datetime in H.
    destruct (astimezone _ _ _) as [local | e]; simpl in H; [ | discriminate ].
    injection H as <-. reflexivity.
  - (* list *)
    simpl in Hdoc. rewrite forallb_forall in Hdoc.
    rewrite Forall_forall in IH.
    rewrite to_jsonable_list in H.
    destruct (mapM normalize xs) as [ys | e] eqn:Hys; simpl in H;
      [ | discriminate ].
    injection H as <-. simpl.
    apply (mapM_forallb normalize json_only (xs := xs)); [ | exact Hys ].
    apply Forall_forall. intros x Hx.
    exact (IH x Hx (Hdoc x Hx)).
  - (* dict *)
    simpl in Hdoc. rewrite forallb_forall in Hdoc.
    rewrite Forall_forall in IH.
    rewrite to_jsonable_dict in H.
    destruct (dict_comprehension normalize items) as [out | e] eqn:Hout;
      simpl in H; [ | discriminate ].
    injection H as <-. simpl.
    unfold dict_comprehension in Hout.
    eapply mapM_forallb; [ | exact Hout ].
    apply Forall_forall. intros [k v] Hkv [k' r].
    destruct (normalize v) as [r' | e] eqn:Hr; simpl; [ | discriminate ].
    intros [= <- <-]. simpl.
    exact (IH _ Hkv (Hdoc _ Hkv) _ Hr).
Qed.

(** Without a zone-carrying plain [datetime] to convert, the normaliser
    returns. *)
Lemma to_jsonable_total (v : value) :
  converts_aware_datetime v = false -> exists r, normalize v = Ok r.
Proof.
  induction v as [ | b | n | x | s | b | p | xs IH | dt ns | dt | lat lon
                 | xs IH | items IH | n | x | b ] using value_ind;
    intros Hfree;
    try (eexists; reflexivity).
  - (* datetime *)
    destruct dt as [w [tz | ]]; [ discriminate Hfree | ].
    rewrite to_jsonable_datetime. cbn [dt_wall dt_tzinfo].
    unfold astimezone. rewrite N.eqb_refl. eexists. reflexivity.
  - (* list *)
    cbn [converts_aware_datetime] in Hfree.
    destruct (@mapM_total _ _ normalize xs) as [ys Hys].
    + rewrite Forall_forall in *. intros x Hx. apply (IH x Hx).
      destruct (converts_aware_datetime x) eqn:Hc; [ | reflexivity ].
      rewrite <- Hfree. symmetry. apply existsb_exists. now exists x.
    + exists (VList ys). rewrite to_jsonable_list, Hys. reflexivity.
  - (* dict *)
    cbn [converts_aware_datetime] in Hfree.
    destruct (@mapM_total _ _
                (fun kv : string * value =>
                   let (k, val) := kv in r <- normalize val ;; Ok (k, r))
                items) as [out Hout].
    + rewrite Forall_forall in *. intros [k v] Hkv.
      destruct (IH _ Hkv) as [r Hr].
      * cbn [snd].
        destruct (converts_aware_datetime v) eqn:Hc; [ | reflexivity ].
        rewrite <- Hfree. symmetry. apply existsb_exists.
        now exists (k, v).
      * exists (k, r). simpl in Hr. now rewrite Hr.
    + exists (VDict out). rewrite to_jsonable_dict.
      unfold dict_comprehension. rewrite Hout. reflexivity.
Qed.

End NormalizerFacts.

(** ** [isoformat] and the ISO 8601 recogniser *)

Lemma append_assoc (a b c : string) : ((a ++ b) ++ c = a ++ (b ++ c))%string.
Proof. induction a as [ | ch a IH ]; simpl; [ reflexivity | now rewrite IH ]. Qed.

Lemma digit_value_digit (n : Z) : ISO8601.digit_value (digit n) = Some (n mod 10).
Proof.
  unfold digit.
  pose proof (Z.mod_pos_bound n 10 eq_refl) as Hr.
  set (r := n mod 10) in *.
  assert (r = 0 \/ r = 1 \/ r = 2 \/ r = 3 \/ r = 4 \/ r = 5 \/ r = 6 \/ r = 7
          \/ r = 8 \/ r = 9) as Hcases by lia.
  clearbody r.
  repeat (destruct Hcases as [-> | Hcases]; [ reflexivity | ]).
  subst r. reflexivity.
Qed.

Lemma read_d02 (n acc : Z) (rest : string) :
  0 <= n < 100 ->
  ISO8601.read_digits 2 acc (d02 n ++ rest) = Some (acc * 100 + n, rest).
Proof.
  intros Hn. unfold d02. cbn [append ISO8601.read_digits].
  rewrite !digit_value_digit. do 2 f_equal.
  Z.to_euclidean_division_equations; lia.
Qed.

Lemma read_d04 (n acc : Z) (rest : string) :
  0 <= n < 10000 ->
  ISO8601.read_digits 4 acc (d04 n ++ rest) = Some (acc * 10000 + n, rest).
Proof.
  intros Hn. unfold d04, d02. cbn [append ISO8601.read_digits].
  rewrite !digit_value_digit. do 2 f_equal.
  Z.to_euclidean_division_equations; lia.
Qed.

Lemma read_d06 (n acc : Z) (rest : string) :
  0 <= n < 1000000 ->
  ISO8601.read_digits 6 acc (d06 n ++ rest) = Some (acc * 1000000 + n, rest).
Proof.
  intros Hn. unfold d06, d04, d02. cbn [append ISO8601.read_digits].
  rewrite !digit_value_digit. do 2 f_equal.
  Z.to_euclidean_division_equations; lia.
Qed.

Lemma read_char_literal (c : ascii) (rest : string) :
  ISO8601.read_char c (String c EmptyString ++ rest) = Some rest.
Proof. cbn [append ISO8601.read_char]. now rewrite Ascii.eqb_refl. Qed.

Lemma read_fraction_offset (off : Z) :
  ISO8601.read_fraction (format_offset (Some off))
  = Some (0, format_offset (Some off)).
Proof. unfold format_offset. destruct (off <? 0); reflexivity. Qed.

Lemma read_fraction_d06 (us : Z) (rest : string) :
  0 <= us < 1000000 ->
  ISO8601.read_fraction ("." ++ d06 us ++ rest) = Some (us, rest).
Proof.
  intros Hus. cbn [append ISO8601.read_fraction].
  change (ISO8601.read_digits 6 0 (d06 us ++ rest) = Some (us, rest)).
  now rewrite read_d06.
Qed.

Lemma read_offset_format (off : Z) :
  offset_ok off = true -> off mod 60 = 0 ->
  ISO8601.read_offset (format_offset (Some off)) = Some off.
Proof.
  unfold offset_ok. rewrite andb_true_iff, !Z.ltb_lt. intros [Hlo Hhi] Hmin.
  unfold format_offset.
  assert (Z.abs off mod 60 = 0) as Habs
      by (Z.to_euclidean_division_equations; lia).
  rewrite Habs. cbn [Z.eqb].
  assert (forall sign : ascii, forall k : Z,
           (if Ascii.eqb sign "+" then Some 1
            else if Ascii.eqb sign "-" then Some (-1) else None) = Some k ->
           k * Z.abs off = off ->
           ISO8601.read_offset
             (String sign EmptyString ++ d02 (Z.abs off / 3600) ++ ":"
              ++ d02 (Z.abs off mod 3600 / 60) ++ EmptyString) = Some off) as Hsign.
  { intros sign k Hk Hoff.
    cbn [append ISO8601.read_offset]. rewrite Hk. cbn [ISO8601.obind].
    change (String ":" (d02 (Z.abs off mod 3600 / 60) ++ EmptyString))
      with (":" ++ d02 (Z.abs off mod 3600 / 60) ++ EmptyString)%string.
    rewrite read_d02 by (Z.to_euclidean_division_equations; lia).
    cbn [ISO8601.obind]. rewrite read_char_literal. cbn [ISO8601.obind].
    rewrite read_d02 by (Z.to_euclidean_division_equations; lia).
    cbn [ISO8601.obind].
    replace (0 * 100 + Z.abs off / 3600 <=? 23) with true
      by (symmetry; apply Z.leb_le; Z.to_euclidean_division_equations; lia).
    replace (0 * 100 + Z.abs off mod 3600 / 60 <=? 59) with true
      by (symmetry; apply Z.leb_le; Z.to_euclidean_division_equations; lia).
    cbn [andb]. f_equal.
    replace ((0 * 100 + Z.abs off / 3600) * 3600
             + (0 * 100 + Z.abs off mod 3600 / 60) * 60) with (Z.abs off)
      by (Z.to_euclidean_division_equations; lia).
    exact Hoff. }
  destruct (off <? 0) eqn:Hneg.
  - apply Z.ltb_lt in Hneg. apply (Hsign "-"%char (-1)); [ reflexivity | lia ].
  - apply Z.ltb_ge in Hneg. apply (Hsign "+"%char 1); [ reflexivity | lia ].
Qed.

Lemma days_in_month_le_31 (y m : Z) : Calendar.days_in_month y m <= 31.
Proof.
  unfold Calendar.days_in_month, Calendar.DAYS_IN_MONTH.
  destruct ((m =? 2) && Calendar.is_leap y); [ lia | ].
  destruct m as [ | p | p ]; try lia.
  do 4 (try destruct p as [ p | p | ]; try lia).
Qed.

Lemma wall_ok_bounds (w : wall) :
  wall_ok w = true ->
  1 <= year w <= 9999 /\ 1 <= month w <= 12
  /\ 1 <= day w <= Calendar.days_in_month (year w) (month w)
  /\ 0 <= hour w <= 23 /\ 0 <= minute w <= 59 /\ 0 <= second w <= 59
  /\ 0 <= microsecond w <= 999999.
Proof.
  unfold wall_ok, Calendar.MINYEAR, Calendar.MAXYEAR.
  rewrite !andb_true_iff, !Z.leb_le. tauto.
Qed.

Lemma parse_isoformat (w : wall) (tz : tzinfo) :
  wall_ok w = true ->
  tz_utcoffset tz w mod 60 = 0 ->
  ISO8601.parse (isoformat (Datetime w (Some tz)))
  = Some (clear_fold w, tz_utcoffset tz w).
Proof.
  intros Hok Hmin.
  pose proof (tz_range tz w) as Hrange.
  pose proof (wall_ok_bounds w Hok) as (Hy & Hmo & Hd & Hh & Hmi & Hs & Hus).
  pose proof (days_in_month_le_31 (year w) (month w)) as Hdim.
  unfold isoformat, utcoffset, format_time.
  cbn [dt_wall dt_tzinfo].
  set (off := tz_utcoffset tz w) in *.
  rewrite !append_assoc.
  unfold ISO8601.parse.
  rewrite read_d04 by lia. cbn [ISO8601.obind]. rewrite read_char_literal.
  cbn [ISO8601.obind]. rewrite read_d02 by lia.
  cbn [ISO8601.obind]. rewrite read_char_literal.
  cbn [ISO8601.obind]. rewrite read_d02 by lia.
  cbn [ISO8601.obind]. rewrite read_char_literal.
  cbn [ISO8601.obind]. rewrite read_d02 by lia.
  cbn [ISO8601.obind]. rewrite read_char_literal.
  cbn [ISO8601.obind]. rewrite read_d02 by lia.
  cbn [ISO8601.obind]. rewrite read_char_literal.
  cbn [ISO8601.obind]. rewrite read_d02 by lia.
  cbn [ISO8601.obind].
  assert (ISO8601.read_fraction
            ((if microsecond w =? 0 then EmptyString else "." ++ d06 (microsecond w))
             ++ format_offset (Some off))
          = Some (microsecond w, format_offset (Some off))) as ->.
  { destruct (microsecond w =? 0) eqn:Hz.
    - apply Z.eqb_eq in Hz. rewrite Hz. apply read_fraction_offset.
    - rewrite append_assoc. apply read_fraction_d06. lia. }
  cbn [ISO8601.obind].
  rewrite read_offset_format by assumption. cbn [ISO8601.obind].
  replace (0 * 10000 + year w) with (year w) by lia.
  replace (0 * 100 + month w) with (month w) by lia.
  replace (0 * 100 + day w) with (day w) by lia.
  replace (0 * 100 + hour w) with (hour w) by lia.
  replace (0 * 100 + minute w) with (minute w) by lia.
  replace (0 * 100 + second w) with (second w) by lia.
  change (wall_ok (Wall (year w) (month w) (day w) (hour w) (minute w)
                        (second w) (microsecond w) false))
    with (wall_ok w).
  rewrite Hok. reflexivity.
Qed.

Lemma read_offset_format_seconds (off : Z) :
  offset_ok off = true -> off mod 60 <> 0 ->
  ISO8601.read_offset (format_offset (Some off)) = None.
Proof.
  unfold offset_ok. rewrite andb_true_iff, !Z.ltb_lt. intros [Hlo Hhi] Hsec.
  unfold format_offset.
  assert (Z.abs off mod 60 <> 0) as Habs
      by (Z.to_euclidean_division_equations; lia).
  apply Z.eqb_neq in Habs. rewrite Habs.
  assert (forall sign : ascii, forall k : Z,
           (if Ascii.eqb sign "+" then Some 1
            else if Ascii.eqb sign "-" then Some (-1) else None) = Some k ->
           ISO8601.read_offset
             (String sign EmptyString ++ d02 (Z.abs off / 3600) ++ ":"
              ++ d02 (Z.abs off mod 3600 / 60) ++ ":"
              ++ d02 (Z.abs off mod 60)) = None) as Hsign.
  { intros sign k Hk.
    cbn [append ISO8601.read_offset]. rewrite Hk. cbn [ISO8601.obind].
    change (String ":" (d02 (Z.abs off mod 3600 / 60)
                        ++ String ":" (d02 (Z.abs off mod 60))))
      with (":" ++ d02 (Z.abs off mod 3600 / 60)
            ++ String ":" (d02 (Z.abs off mod 60)))%string.
    rewrite read_d02 by (Z.to_euclidean_division_equations; lia).
    cbn [ISO8601.obind]. rewrite read_char_literal. cbn [ISO8601.obind].
    rewrite read_d02 by (Z.to_euclidean_division_equations; lia).
    reflexivity. }
  destruct (off <? 0).
  - apply (Hsign "-"%char (-1)). reflexivity.
  - apply (Hsign "+"%char 1). reflexivity.
Qed.

(** Reading an [isoformat] text back comes down to reading its offset. *)
Lemma parse_isoformat_offset (w : wall) (tz : tzinfo) :
  wall_ok w = true ->
  ISO8601.parse (isoformat (Datetime w (Some tz)))
  = match ISO8601.read_offset (format_offset (Some (tz_utcoffset tz w))) with
    | Some off => Some (clear_fold w, off)
    | None => None
    end.
Proof.
  intros Hok.
  pose proof (wall_ok_bounds w Hok) as (Hy & Hmo & Hd & Hh & Hmi & Hs & Hus).
  pose proof (days_in_month_le_31 (year w) (month w)) as Hdim.
  unfold isoformat, utcoffset, format_time.
  cbn [dt_wall dt_tzinfo].
  set (off := tz_utcoffset tz w) in *.
  rewrite !append_assoc.
  unfold ISO8601.parse.
  rewrite read_d04 by lia. cbn [ISO8601.obind]. rewrite read_char_literal.
  cbn [ISO8601.obind]. rewrite read_d02 by lia.
  cbn [ISO8601.obind]. rewrite read_char_literal.
  cbn [ISO8601.obind]. rewrite read_d02 by lia.
  cbn [ISO8601.obind]. rewrite read_char_literal.
  cbn [ISO8601.obind]. rewrite read_d02 by lia.
  cbn [ISO8601.obind]. rewrite read_char_literal.
  cbn [ISO8601.obind]. rewrite read_d02 by lia.
  cbn [ISO8601.obind]. rewrite read_char_literal.
  cbn [ISO8601.obind]. rewrite read_d02 by lia.
  cbn [ISO8601.obind].
  assert (ISO8601.read_fraction
            ((if microsecond w =? 0 then EmptyString
              else "." ++ d06 (microsecond w))
             ++ format_offset (Some off))
          = Some (microsecond w, format_offset (Some off))) as ->.
  { destruct (microsecond w =? 0) eqn:Hz.
    - apply Z.eqb_eq in Hz. rewrite Hz. apply read_fraction_offset.
    - rewrite append_assoc. apply read_fraction_d06. lia. }
  cbn [ISO8601.obind].
  destruct (ISO8601.read_offset (format_offset (Some off))) as [o | ];
    cbn [ISO8601.obind]; [ | reflexivity ].
  replace (0 * 10000 + year w) with (year w) by lia.
  replace (0 * 100 + month w) with (month w) by lia.
  replace (0 * 100 + day w) with (day w) by lia.
  replace (0 * 100 + hour w) with (hour w) by lia.
  replace (0 * 100 + minute w) with (minute w) by lia.
  replace (0 * 100 + second w) with (second w) by lia.
  change (wall_ok (Wall (year w) (month w) (day w) (hour w) (minute w)
                        (second w) (microsecond w) false))
    with (wall_ok w).
  rewrite Hok. reflexivity.
Qed.

(** ** [strip] *)

Lemma rev_repeat (A : Type) (x : A) (n : nat) : rev (repeat x n) = repeat x n.
Proof.
  induction n as [ | n IH ]; [ reflexivity | ].
  simpl. rewrite IH. symmetry. apply repeat_cons.
Qed.

Lemma lstrip_quotes (s : list ascii) :
  exists n, s = (repeat DQUOTE n ++ lstrip [DQUOTE] s)%list
            /\ forall rest, lstrip [DQUOTE] s <> DQUOTE :: rest.
Proof.
  induction s as [ | c s (n & Heq & Hhead) ].
  - exists 0%nat. split; [ reflexivity | discriminate ].
  - cbn [lstrip existsb]. rewrite orb_false_r.
    destruct (Ascii.eqb c DQUOTE) eqn:Hc.
    + apply Ascii.eqb_eq in Hc. subst c.
      exists (S n). split; [ | exact Hhead ].
      cbn [repeat app]. now rewrite <- Heq.
    + apply Ascii.eqb_neq in Hc.
      exists 0%nat. split; [ reflexivity | ].
      intros rest [= Habs _]. contradiction.
Qed.

Lemma rstrip_quotes (s : list ascii) :
  exists m, s = (rstrip [DQUOTE] s ++ repeat DQUOTE m)%list
            /\ forall init, rstrip [DQUOTE] s <> (init ++ [DQUOTE])%list.
Proof.
  destruct (lstrip_quotes (rev s)) as (m & Heq & Hhead).
  exists m. unfold rstrip. split.
  - rewrite <- (rev_involutive s) at 1.
    rewrite Heq at 1. now rewrite rev_app_distr, rev_repeat.
  - intros init H. apply (f_equal (@rev ascii)) in H.
    rewrite rev_involutive, rev_app_distr in H. exact (Hhead _ H).
Qed.

(** [strip] removes a run of quotes at each end and leaves a string that
    neither starts nor ends with a quote. *)
Lemma strip_quotes (s : string) :
  exists n m,
    list_ascii_of_string s
    = (repeat DQUOTE n
       ++ list_ascii_of_string (strip (String DQUOTE EmptyString) s)
       ++ repeat DQUOTE m)%list
    /\ (forall rest,
          list_ascii_of_string (strip (String DQUOTE EmptyString) s) <> DQUOTE :: rest)
    /\ (forall init,
          list_ascii_of_string (strip (String DQUOTE EmptyString) s)
          <> (init ++ [DQUOTE])%list).
Proof.
  unfold strip. cbn [list_ascii_of_string].
  rewrite list_ascii_of_string_of_list_ascii.
  destruct (lstrip_quotes (list_ascii_of_string s)) as (n & Hl & Hhead).
  destruct (rstrip_quotes (lstrip [DQUOTE] (list_ascii_of_string s)))
    as (m & Hr & Hlast).
  exists n, m. split; [ | split ].
  - rewrite Hl at 1. now rewrite Hr at 1.
  - intros rest H. rewrite H in Hr. exact (Hhead _ Hr).
  - exact Hlast.
Qed.

(** ** Dicts *)

Lemma dict_get_set_eq (d : dict) (k : string) (v : value) :
  dict_get (dict_set d k v) k = Some v.
Proof.
  induction d as [ | [k' v'] rest IH ]; simpl.
  - now rewrite String.eqb_refl.
  - destruct (String.eqb k' k) eqn:Hk; simpl; rewrite Hk; [ reflexivity | exact IH ].
Qed.

Lemma dict_get_set_ne (d : dict) (k k' : string) (v : value) :
  k' <> k -> dict_get (dict_set d k v) k' = dict_get d k'.
Proof.
  intros Hne. induction d as [ | [k0 v0] rest IH ]; simpl.
  - destruct (String.eqb k k') eqn:Hk; [ | reflexivity ].
    apply String.eqb_eq in Hk. congruence.
  - destruct (String.eqb k0 k) eqn:Hk; simpl.
    + apply String.eqb_eq in Hk. subst k0.
      destruct (String.eqb k k') eqn:Hk'; [ | reflexivity ].
      apply String.eqb_eq in Hk'. congruence.
    + now rewrite IH.
Qed.

Lemma dict_keys_set (d : dict) (k k' : string) (v : value) :
  In k' (dict_keys (dict_set d k v)) <-> k' = k \/ In k' (dict_keys d).
Proof.
  unfold dict_keys. induction d as [ | [k0 v0] rest IH ]; simpl.
  - intuition congruence.
  - destruct (String.eqb k0 k) eqn:Hk; simpl.
    + apply String.eqb_eq in Hk. subst k0. intuition congruence.
    + rewrite IH. intuition congruence.
Qed.

(** ** The encoder of the response *)

Lemma json_dumps_finite (v : value) :
  json_finite v = true -> json_dumps v = Ok tt.
Proof.
  induction v as [ | b | n | x | s | b | p | xs IH | dt ns | dt | lat lon
                 | xs IH | items IH | n | x | b ] using value_ind;
    intros Hfin; try discriminate Hfin; try reflexivity.
  - simpl in *. now rewrite Hfin.
  - cbn [json_finite] in Hfin. rewrite forallb_forall in Hfin.
    rewrite Forall_forall in IH.
    destruct (@mapM_total _ _ json_dumps xs) as [ys Hys].
    + apply Forall_forall. intros x Hx. exists tt. exact (IH x Hx (Hfin x Hx)).
    + change (json_dumps (VList xs))
        with (written <- mapM json_dumps xs ;; Ok tt).
      now rewrite Hys.
  - cbn [json_finite] in Hfin. rewrite forallb_forall in Hfin.
    rewrite Forall_forall in IH.
    destruct (@mapM_total _ _
                (fun kv : string * value => json_dumps (snd kv)) items)
      as [ys Hys].
    + apply Forall_forall. intros kv Hkv. exists tt.
      exact (IH kv Hkv (Hfin kv Hkv)).
    + change (json_dumps (VDict items))
        with (written <- mapM (fun kv : string * value => json_dumps (snd kv))
                           items ;;
              Ok tt).
      now rewrite Hys.
Qed.

Lemma store_document_value_document (v : value) :
  store_document_value v = true ->
  document_value v = true /\ converts_aware_datetime v = false.
Proof.
  induction v as [ | b | n | x | s | b | p | xs IH | dt ns | dt | lat lon
                 | xs IH | items IH | n | x | b ] using value_ind;
    intros Hstore; try discriminate Hstore; try (split; reflexivity).
  - cbn [store_document_value] in Hstore. rewrite forallb_forall in Hstore.
    rewrite Forall_forall in IH. cbn [document_value converts_aware_datetime].
    split.
    + apply forallb_forall. intros x Hx. exact (proj1 (IH x Hx (Hstore x Hx))).
    + destruct (existsb converts_aware_datetime xs) eqn:Hex; [ | reflexivity ].
      apply existsb_exists in Hex as (x & Hx & Hc).
      now rewrite (proj2 (IH x Hx (Hstore x Hx))) in Hc.
  - cbn [store_document_value] in Hstore. rewrite forallb_forall in Hstore.
    rewrite Forall_forall in IH. cbn [document_value converts_aware_datetime].
    split.
    + apply forallb_forall. intros kv Hkv.
      exact (proj1 (IH kv Hkv (Hstore kv Hkv))).
    + destruct (existsb (fun kv => converts_aware_datetime (snd kv)) items)
        eqn:Hex; [ | reflexivity ].
      apply existsb_exists in Hex as (kv & Hkv & Hc).
      now rewrite (proj2 (IH kv Hkv (Hstore kv Hkv))) in Hc.
Qed.

(** The results of the normaliser on field values of section 3 with finite
    numbers are values the encoder writes. *)
Lemma to_jsonable_json_finite (LOCAL_TZ : tzinfo) (v : value) :
  document_value v = true ->
  finite_numbers v = true ->
  forall r, to_jsonable LOCAL_TZ v = Ok r -> json_finite r = true.
Proof.
  induction v as [ | b | n | x | s | b | p | xs IH | dt ns | dt | lat lon
                 | xs IH | items IH | n | x | b ] using value_ind;
    intros Hdoc Hfin r H;
    try discriminate Hdoc;
    try (injection H as <-; exact Hfin);
    try (injection H as <-; reflexivity).
  - (* datetime *)
    rewrite to_jsonable_datetime in H.
    destruct (astimezone _ _ _) as [local | e]; simpl in H; [ | discriminate ].
    injection H as <-. reflexivity.
  - (* geo-point *)
    injection H as <-. cbn [finite_numbers] in Hfin.
    cbn [json_finite forallb snd]. now rewrite andb_true_r.
  - (* list *)
    cbn [document_value finite_numbers] in Hdoc, Hfin.
    rewrite forallb_forall in Hdoc, Hfin. rewrite Forall_forall in IH.
    rewrite to_jsonable_list in H.
    destruct (mapM (to_jsonable LOCAL_TZ) xs) as [ys | e] eqn:Hys;
      simpl in H; [ | discriminate ].
    injection H as <-. cbn [json_finite].
    apply (mapM_forallb (to_jsonable LOCAL_TZ) json_finite (xs := xs));
      [ | exact Hys ].
    apply Forall_forall. intros x Hx.
    exact (IH x Hx (Hdoc x Hx) (Hfin x Hx)).
  - (* dict *)
    cbn [document_value finite_numbers] in Hdoc, Hfin.
    rewrite forallb_forall in Hdoc, Hfin. rewrite Forall_forall in IH.
    rewrite to_jsonable_dict in H.
    destruct (dict_comprehension (to_jsonable LOCAL_TZ) items)
      as [out | e] eqn:Hout; simpl in H; [ | discriminate ].
    injection H as <-. cbn [json_finite].
    unfold dict_comprehension in Hout.
    eapply mapM_forallb; [ | exact Hout ].
    apply Forall_forall. intros [k v] Hkv [k' r].
    destruct (to_jsonable LOCAL_TZ v) as [r' | e] eqn:Hr; simpl;
      [ | discriminate ].
    intros [= <- <-]. simpl.
    exact (IH _ Hkv (Hdoc _ Hkv) (Hfin _ Hkv) _ Hr).
Qed.

Lemma new_JSONResponse_finite (items : list dict) :
  json_finite (VList (map VDict items)) = true ->
  new_JSONResponse items = Ok {| status_code := 200; content := items |}.
Proof.
  intros Hfin. unfold new_JSONResponse.
  now rewrite (json_dumps_finite _ Hfin).
Qed.

Lemma new_JSONResponse_Ok (items : list dict) (r : JSONResponse) :
  new_JSONResponse items = Ok r -> status_code r = 200 /\ content r = items.
Proof.
  unfold new_JSONResponse.
  destruct (json_dumps _) as [ [] | e ]; simpl; [ | discriminate ].
  intros [= <-]. now split.
Qed.

(* ================================================================== *)
(** * The claims *)

(** C1.  The store's timestamp class does not get the treatment the claim
    describes when the value carries a zone: [replace] swaps the zone and
    keeps the wall-clock reading, so the zone of the input has no effect on
    the result and the instant moves.  At noon UTC of 2024-01-15, with a
    local zone three hours behind UTC, the result reads noon local time,
    three hours after the input; the branch for plain [datetime] values
    converts the same input to 09:00 local time, the same instant. *)
Theorem native_timestamp_zone_replaced :
  (forall (LOCAL_TZ tz : tzinfo) (w : wall) (ns : Z),
      to_jsonable LOCAL_TZ (VDatetimeWithNanoseconds (Datetime w (Some tz)) ns)
      = to_jsonable LOCAL_TZ (VDatetimeWithNanoseconds (Datetime w None) ns))
  /\ to_jsonable utc_minus_3
       (VDatetimeWithNanoseconds (Datetime noon (Some utc)) 0)
     = Ok (VStr "2024-01-15T12:00:00-03:00")
  /\ to_jsonable utc_minus_3 (VDatetime (Datetime noon (Some utc)))
     = Ok (VStr "2024-01-15T09:00:00-03:00")
  /\ option_map ISO8601.instant_us (ISO8601.parse "2024-01-15T12:00:00-03:00")
     = Some (instant_us noon utc + 3 * 3600 * US_PER_SECOND)
  /\ option_map ISO8601.instant_us (ISO8601.parse "2024-01-15T09:00:00-03:00")
     = Some (instant_us noon utc).
Proof.
  split; [ reflexivity | ].
  repeat split; vm_compute; reflexivity.
Qed.

(** C2, as the code has it.  For every field value of the kinds section 3
    of the specification gives a document (string, number, boolean, null,
    nested mapping, list, timestamp, geo-point, scalar of the numeric
    library), whatever the normaliser returns is made of strings, numbers,
    booleans, null, lists and mappings only, at every depth; and for the
    values of these kinds that the store yields it does return such a
    result. *)
Theorem to_jsonable_json_only (LOCAL_TZ : tzinfo) (v : value) :
  (document_value v = true ->
   forall r, to_jsonable LOCAL_TZ v = Ok r -> json_only r = true)
  /\ (store_document_value v = true ->
      exists r, to_jsonable LOCAL_TZ v = Ok r /\ json_only r = true).
Proof.
  split.
  - apply to_jsonable_document_value.
  - intros Hstore.
    destruct (store_document_value_document v Hstore) as [Hdoc Hfree].
    destruct (to_jsonable_total LOCAL_TZ v Hfree) as [r Hr].
    exists r. split; [ exact Hr | ].
    exact (to_jsonable_document_value LOCAL_TZ v Hdoc Hr).
Qed.

Lemma to_jsonable_json_only_witness :
  document_value sample_value = true
  /\ (forall r, to_jsonable utc_minus_3 sample_value = Ok r ->
                json_only r = true)
  /\ store_document_value
       (VList [VDatetimeWithNanoseconds (Datetime noon (Some utc)) 0;
               VDict [("pos", VGeoPoint 1%float 2%float)]]) = true
  /\ exists r,
       to_jsonable utc_minus_3
         (VList [VDatetimeWithNanoseconds (Datetime noon (Some utc)) 0;
                 VDict [("pos", VGeoPoint 1%float 2%float)]]) = Ok r
       /\ json_only r = true.
Proof.
  split; [ reflexivity | ].
  split; [ apply (proj1 (to_jsonable_json_only utc_minus_3 sample_value));
           reflexivity | ].
  split; [ reflexivity | ].
  apply (proj2 (to_jsonable_json_only utc_minus_3
                  (VList [VDatetimeWithNanoseconds (Datetime noon (Some utc)) 0;
                          VDict [("pos", VGeoPoint 1%float 2%float)]]))).
  reflexivity.
Defined.

(** C2, as the claim states it, fails: a field of bytes, which a document
    of the store can hold, has no test in the normaliser and comes back as
    it is, inside the mapping that holds it. *)
Lemma bytes_field_not_json :
  to_jsonable utc_minus_3 (VDict [("firma", VBytes [Byte.x00; Byte.x01])])
  = Ok (VDict [("firma", VBytes [Byte.x00; Byte.x01])])
  /\ json_only (VDict [("firma", VBytes [Byte.x00; Byte.x01])]) = false
  /\ ~ (forall (LOCAL_TZ : tzinfo) (v r : value),
          to_jsonable LOCAL_TZ v = Ok r -> json_only r = true).
Proof.
  split; [ reflexivity | split; [ reflexivity | ] ].
  intros H.
  specialize (H utc_minus_3 (VDict [("firma", VBytes [Byte.x00; Byte.x01])])
                _ eq_refl).
  discriminate H.
Qed.

(** C5.  Normalising the result of the normaliser changes nothing: running
    it twice is running it once, for every value. *)
Theorem to_jsonable_idempotent (LOCAL_TZ : tzinfo) (v : value) :
  (r <- to_jsonable LOCAL_TZ v ;; to_jsonable LOCAL_TZ r)
  = to_jsonable LOCAL_TZ v.
Proof.
  destruct (to_jsonable LOCAL_TZ v) as [r | e] eqn:H; simpl; [ | reflexivity ].
  exact (to_jsonable_fixes_results _ _ H).
Qed.

(** C6, as the code has it.  A timestamp without a zone, of the store's
    class or a plain [datetime], is normalised to the text [isoformat]
    writes for the same wall-clock reading in the local zone: the date and
    the time followed by the offset the local zone has at that reading.
    When that offset is a whole number of minutes the text is ISO 8601, and
    reads back as the fields and that offset; when it is not, [isoformat]
    writes the seconds of the offset, which ISO 8601 cannot express, and
    the text is not ISO 8601. *)
Theorem naive_timestamp_local_iso (LOCAL_TZ : tzinfo) (w : wall) (ns : Z) :
  wall_ok w = true ->
  exists s,
    to_jsonable LOCAL_TZ (VDatetimeWithNanoseconds (Datetime w None) ns)
    = Ok (VStr s)
    /\ to_jsonable LOCAL_TZ (VDatetime (Datetime w None)) = Ok (VStr s)
    /\ s = isoformat (Datetime w (Some LOCAL_TZ))
    /\ (tz_utcoffset LOCAL_TZ w mod 60 = 0 ->
        ISO8601.parse s = Some (clear_fold w, tz_utcoffset LOCAL_TZ w))
    /\ (tz_utcoffset LOCAL_TZ w mod 60 <> 0 -> ISO8601.parse s = None).
Proof.
  intros Hok.
  exists (isoformat (Datetime w (Some LOCAL_TZ))).
  split; [ reflexivity | split; [ | split; [ reflexivity | split ] ] ].
  - rewrite to_jsonable_datetime. cbn [dt_wall dt_tzinfo].
    unfold astimezone. now rewrite N.eqb_refl.
  - intros Hmin. now apply parse_isoformat.
  - intros Hsec. rewrite parse_isoformat_offset by exact Hok.
    now rewrite (@read_offset_format_seconds _ (tz_range LOCAL_TZ w) Hsec).
Qed.

Lemma naive_timestamp_local_iso_witness :
  wall_ok noon = true
  /\ tz_utcoffset utc_minus_3 noon mod 60 = 0
  /\ exists s,
       to_jsonable utc_minus_3 (VDatetimeWithNanoseconds (Datetime noon None) 0)
       = Ok (VStr s)
       /\ to_jsonable utc_minus_3 (VDatetime (Datetime noon None)) = Ok (VStr s)
       /\ ISO8601.parse s = Some (clear_fold noon, tz_utcoffset utc_minus_3 noon).
Proof.
  split; [ reflexivity | split; [ reflexivity | ] ].
  destruct (@naive_timestamp_local_iso utc_minus_3 noon 0 eq_refl)
    as (s & Hnative & Hplain & _ & Hiso & _).
  exists s. split; [ exact Hnative | split; [ exact Hplain | ] ].
  apply Hiso. reflexivity.
Defined.

(** C6, as the claim states it, fails: at noon of 1900-01-15, where the
    local zone is 4 h 42 min 45 s behind UTC, the text ends with the offset
    [-04:42:45] and is not ISO 8601. *)
Lemma seconds_offset_not_iso :
  wall_ok noon_1900 = true
  /\ to_jsonable santiago_1900 (VDatetime (Datetime noon_1900 None))
     = Ok (VStr "1900-01-15T12:00:00-04:42:45")
  /\ to_jsonable santiago_1900
       (VDatetimeWithNanoseconds (Datetime noon_1900 None) 0)
     = Ok (VStr "1900-01-15T12:00:00-04:42:45")
  /\ ISO8601.parse "1900-01-15T12:00:00-04:42:45" = None
  /\ ~ (forall (LOCAL_TZ : tzinfo) (w : wall),
          wall_ok w = true ->
          exists s fields,
            to_jsonable LOCAL_TZ (VDatetime (Datetime w None)) = Ok (VStr s)
            /\ ISO8601.parse s = Some (fields, tz_utcoffset LOCAL_TZ w)).
Proof.
  split; [ reflexivity | ].
  split; [ vm_compute; reflexivity | ].
  split; [ vm_compute; reflexivity | ].
  split; [ vm_compute; reflexivity | ].
  intros H.
  destruct (H santiago_1900 noon_1900 eq_refl) as (s & fields & Hs & Hparse).
  vm_compute in Hs. injection Hs as <-.
  vm_compute in Hparse. discriminate Hparse.
Qed.

(** C8, as the code has it.  A value of a kind the normaliser has no test
    for comes back unchanged, and without an exception. *)
Theorem to_jsonable_passthrough (LOCAL_TZ : tzinfo) (v : value) :
  recognized v = false -> to_jsonable LOCAL_TZ v = Ok v.
Proof. destruct v; intros H; solve [ discriminate H | reflexivity ]. Qed.

Lemma to_jsonable_passthrough_witness :
  recognized (VTuple [VGeoPoint 1%float 2%float; VBytes [Byte.x00]]) = false
  /\ to_jsonable utc_minus_3 (VTuple [VGeoPoint 1%float 2%float; VBytes [Byte.x00]])
     = Ok (VTuple [VGeoPoint 1%float 2%float; VBytes [Byte.x00]]).
Proof.
  split; [ reflexivity | ].
  apply (@to_jsonable_passthrough utc_minus_3); reflexivity.
Defined.

(** C8, as the claim states it, fails: the normaliser has a failure mode.
    Converting a plain [datetime] that carries a zone goes through UTC, and
    a reading at the first day of year 1 leaves the calendar on the way:
    [OverflowError], whatever the local zone is when the value is one hour
    ahead of UTC, and for a UTC value when the local zone is behind UTC. *)
Lemma aware_datetime_overflow :
  recognized (VDatetime (Datetime first_reading (Some utc))) = true
  /\ to_jsonable utc_minus_3 (VDatetime (Datetime first_reading (Some utc)))
     = Raise OverflowError
  /\ (forall LOCAL_TZ : tzinfo,
        tz_ident LOCAL_TZ <> tz_ident utc_plus_1 ->
        to_jsonable LOCAL_TZ (VDatetime (Datetime first_reading (Some utc_plus_1)))
        = Raise OverflowError)
  /\ ~ (forall (LOCAL_TZ : tzinfo) (v : value),
          exists r, to_jsonable LOCAL_TZ v = Ok r).
Proof.
  split; [ reflexivity | ].
  split; [ vm_compute; reflexivity | ].
  split.
  - intros LOCAL_TZ Hid. rewrite to_jsonable_datetime.
    cbn [dt_wall dt_tzinfo]. unfold astimezone.
    apply N.eqb_neq in Hid. rewrite Hid. reflexivity.
  - intros H.
    destruct (H utc_minus_3 (VDatetime (Datetime first_reading (Some utc))))
      as [r Hr].
    vm_compute in Hr. discriminate Hr.
Qed.

(** C9.  A geo-point becomes the mapping of its latitude and its longitude,
    with these two keys and no other. *)
Theorem to_jsonable_geopoint (LOCAL_TZ : tzinfo) (lat lon : float) :
  to_jsonable LOCAL_TZ (VGeoPoint lat lon)
  = Ok (VDict [("latitude", VFloat lat); ("longitude", VFloat lon)]).
Proof. reflexivity. Qed.

(** ** The query layer *)

(** C3, as the code has it.  The value of the equality filter is the
    identifier without the double quotes at its two ends, however many
    there are on either side: the identifier is a run of quotes, the filter
    value, and a run of quotes, and the filter value neither starts nor ends
    with a quote.  A quoted [abc] and a bare [abc] give the same query. *)
Theorem fetch_strips_every_quote
  (LOCAL_TZ : tzinfo) (db : Client) (key campana_id : string)
  (cfg : collection_config) :
  getitem COLLECTIONS key = Ok cfg ->
  exists q,
    col_ref key campana_id = Ok q
    /\ Firestore.collection q = name cfg
    /\ Firestore.field_path q = filter_field cfg
    /\ Firestore.op_string q = "=="
    /\ fetch_collection LOCAL_TZ db key campana_id
       = mapM (doc_to_dict LOCAL_TZ) (db q)
    /\ (exists n m,
          list_ascii_of_string campana_id
          = (repeat DQUOTE n
             ++ list_ascii_of_string (Firestore.filter_value q)
             ++ repeat DQUOTE m)%list)
    /\ (forall rest,
          list_ascii_of_string (Firestore.filter_value q) <> DQUOTE :: rest)
    /\ (forall init,
          list_ascii_of_string (Firestore.filter_value q)
          <> (init ++ [DQUOTE])%list)
    /\ col_ref key (quoted "abc") = col_ref key "abc"
    /\ fetch_collection LOCAL_TZ db key (quoted "abc")
       = fetch_collection LOCAL_TZ db key "abc".
Proof.
  intros Hcfg.
  assert (col_ref key (quoted "abc") = col_ref key "abc") as Habc.
  { unfold col_ref. rewrite Hcfg. reflexivity. }
  eexists. split; [ unfold col_ref; rewrite Hcfg; reflexivity | ].
  cbn [Firestore.collection Firestore.field_path Firestore.op_string
       Firestore.filter_value].
  destruct (strip_quotes campana_id) as (n & m & Heq & Hhead & Hlast).
  split; [ reflexivity | ].
  split; [ reflexivity | ].
  split; [ reflexivity | ].
  split; [ unfold fetch_collection, col_ref; rewrite Hcfg; reflexivity | ].
  split; [ now exists n, m | ].
  split; [ exact Hhead | ].
  split; [ exact Hlast | ].
  split; [ exact Habc | ].
  unfold fetch_collection. now rewrite Habc.
Qed.

Lemma fetch_strips_every_quote_witness :
  getitem COLLECTIONS "campana"
  = Ok {| name := "campana"; filter_field := "campanaID" |}
  /\ exists q,
       col_ref "campana" (quoted (quoted "XYZ")) = Ok q
       /\ Firestore.collection q = "campana"
       /\ Firestore.field_path q = "campanaID"
       /\ Firestore.op_string q = "=="
       /\ fetch_collection utc_minus_3 sample_db "campana" (quoted (quoted "XYZ"))
          = mapM (doc_to_dict utc_minus_3) (sample_db q)
       /\ (exists n m,
             list_ascii_of_string (quoted (quoted "XYZ"))
             = (repeat DQUOTE n
                ++ list_ascii_of_string (Firestore.filter_value q)
                ++ repeat DQUOTE m)%list)
       /\ (forall rest,
             list_ascii_of_string (Firestore.filter_value q) <> DQUOTE :: rest)
       /\ (forall init,
             list_ascii_of_string (Firestore.filter_value q)
             <> (init ++ [DQUOTE])%list)
       /\ col_ref "campana" (quoted "abc") = col_ref "campana" "abc"
       /\ fetch_collection utc_minus_3 sample_db "campana" (quoted "abc")
          = fetch_collection utc_minus_3 sample_db "campana" "abc".
Proof.
  split; [ reflexivity | ].
  apply (@fetch_strips_every_quote utc_minus_3 sample_db "campana"
           (quoted (quoted "XYZ"))
           {| name := "campana"; filter_field := "campanaID" |}).
  reflexivity.
Defined.

(** C3, as the claim states it, fails: with two quotes on each side the
    filter value is the bare [abc], where taking off exactly one pair would
    leave ["abc"] in quotes; and a single leading quote, which is no pair,
    is removed as well. *)
Lemma strip_more_than_one_pair :
  col_ref "campana" (quoted (quoted "abc"))
  = Ok {| Firestore.collection := "campana";
          Firestore.field_path := "campanaID";
          Firestore.op_string := "==";
          Firestore.filter_value := "abc" |}
  /\ strip_one_pair (quoted (quoted "abc")) = quoted "abc"
  /\ strip (String DQUOTE EmptyString) (quoted (quoted "abc"))
     <> strip_one_pair (quoted (quoted "abc"))
  /\ strip (String DQUOTE EmptyString) (String DQUOTE "abc") = "abc"
  /\ strip_one_pair (String DQUOTE "abc") = String DQUOTE "abc".
Proof.
  repeat split; try reflexivity.
  vm_compute. discriminate.
Qed.

(** C7, as the code has it.  The normalised document has the keys of the
    stored fields and the key ["id"]; ["id"] holds the identifier the store
    gave the document, also when a stored field has that name; every other
    key holds the normalised value of its field.  The conversion does
    return when no plain [datetime] that carries a zone has to be converted,
    as is the case of every document of the store. *)
Theorem doc_to_dict_fields
  (LOCAL_TZ : tzinfo) (doc : DocumentSnapshot) (fields : dict) :
  Firestore.to_dict doc = Some fields ->
  (forall data,
      doc_to_dict LOCAL_TZ doc = Ok data ->
      dict_get data "id" = Some (VStr (Firestore.id doc))
      /\ (forall k, In k (dict_keys data) <-> k = "id" \/ In k (dict_keys fields))
      /\ (forall k, k <> "id" ->
            match dict_get fields k with
            | Some v =>
                exists r, to_jsonable LOCAL_TZ v = Ok r /\ dict_get data k = Some r
            | None => dict_get data k = None
            end))
  /\ (converts_aware_datetime (VDict fields) = false ->
      exists data, doc_to_dict LOCAL_TZ doc = Ok data).
Proof.
  intros Hfields. unfold doc_to_dict. rewrite Hfields. split.
  - intros data H.
    destruct (dict_comprehension (to_jsonable LOCAL_TZ) fields)
      as [out | e] eqn:Hout; simpl in H; [ | discriminate ].
    injection H as <-.
    split; [ apply dict_get_set_eq | split ].
    + intros k. rewrite dict_keys_set.
      now rewrite (dict_comprehension_keys _ _ Hout).
    + intros k Hk. rewrite dict_get_set_ne by exact Hk.
      exact (dict_comprehension_get _ _ k Hout).
  - intros Hfree.
    destruct (to_jsonable_total LOCAL_TZ (VDict fields) Hfree) as [r Hr].
    rewrite to_jsonable_dict in Hr.
    destruct (dict_comprehension (to_jsonable LOCAL_TZ) fields)
      as [out | e]; simpl in Hr; [ | discriminate ].
    simpl. eauto.
Qed.

Lemma doc_to_dict_fields_witness :
  Firestore.to_dict sample_doc
  = Some [ ("campanaID", VStr "XYZ"); ("nombre", VStr "Test");
           ("creado", VDatetimeWithNanoseconds (Datetime noon (Some utc)) 0) ]
  /\ doc_to_dict utc_minus_3 sample_doc
     = Ok [ ("campanaID", VStr "XYZ"); ("nombre", VStr "Test");
            ("creado", VStr "2024-01-15T12:00:00-03:00");
            ("id", VStr "doc1") ]
  /\ exists data,
       dict_get data "id" = Some (VStr "doc1")
       /\ dict_get data "nombre" = Some (VStr "Test").
Proof.
  split; [ reflexivity | split; [ reflexivity | ] ].
  destruct (@doc_to_dict_fields utc_minus_3 sample_doc _ eq_refl)
    as [Hshape _].
  destruct (Hshape _ eq_refl) as (Hid & _ & Hother).
  eexists. split; [ exact Hid | ].
  specialize (Hother "nombre"%string ltac:(discriminate)).
  destruct Hother as (r & Hr & Hget).
  injection Hr as <-. exact Hget.
Defined.

(** C7, as the claim states it, fails for a document with a stored field
    named ["id"]: the key holds the document identifier, not the normalised
    value of the field. *)
Lemma stored_id_field_replaced :
  Firestore.to_dict doc_with_id_field
  = Some [ ("id", VInt 7); ("nombre", VStr "Test") ]
  /\ to_jsonable utc_minus_3 (VInt 7) = Ok (VInt 7)
  /\ doc_to_dict utc_minus_3 doc_with_id_field
     = Ok [ ("id", VStr "doc2"); ("nombre", VStr "Test") ]
  /\ ~ (forall (LOCAL_TZ : tzinfo) (doc : DocumentSnapshot) (fields data : dict),
          Firestore.to_dict doc = Some fields ->
          doc_to_dict LOCAL_TZ doc = Ok data ->
          forall k v, dict_get fields k = Some v ->
            exists r, to_jsonable LOCAL_TZ v = Ok r /\ dict_get data k = Some r).
Proof.
  repeat split.
  intros H.
  destruct (H utc_minus_3 doc_with_id_field _ _ eq_refl eq_refl
              "id"%string (VInt 7) eq_refl) as (r & Hr & Hget).
  injection Hr as <-. discriminate Hget.
Qed.

(** C10.  A document without data, absent or empty, converts to the
    mapping whose only key is ["id"], bound to the document identifier. *)
Theorem doc_to_dict_no_data (LOCAL_TZ : tzinfo) (doc : DocumentSnapshot) :
  Firestore.to_dict doc = None \/ Firestore.to_dict doc = Some [] ->
  doc_to_dict LOCAL_TZ doc = Ok [("id", VStr (Firestore.id doc))].
Proof.
  unfold doc_to_dict. intros [-> | ->]; reflexivity.
Qed.

Lemma doc_to_dict_no_data_witness :
  (Firestore.to_dict missing_doc = None \/ Firestore.to_dict missing_doc = Some [])
  /\ doc_to_dict utc_minus_3 missing_doc = Ok [("id", VStr "doc3")]
  /\ (Firestore.to_dict empty_doc = None \/ Firestore.to_dict empty_doc = Some [])
  /\ doc_to_dict utc_minus_3 empty_doc = Ok [("id", VStr "doc4")].
Proof.
  split; [ left; reflexivity | ].
  split; [ apply (@doc_to_dict_no_data utc_minus_3 missing_doc); left; reflexivity | ].
  split; [ right; reflexivity | ].
  apply (@doc_to_dict_no_data utc_minus_3 empty_doc); right; reflexivity.
Defined.

(** C4, as the code has it.  When the store has no document for the
    filter, each of the two handlers raises [HTTPException] 404 with its
    message, which the framework answers with status 404; when the fetched
    list is not empty and holds JSON types only, with finite numbers, the
    handler returns it in a response of status 200, one normalised document
    for each document of the store's answer; and whenever a handler returns
    a response, it has status 200 and holds the fetched list, which is not
    empty. *)
Theorem get_not_found_or_ok
  (LOCAL_TZ : tzinfo) (db : Client) (campana_id : string)
  (q_campana q_estacion : Query) :
  col_ref "campana" campana_id = Ok q_campana ->
  col_ref "estacion" campana_id = Ok q_estacion ->
  (db q_campana = [] ->
     get_campana LOCAL_TZ db campana_id
     = Raise (HTTPException 404
                "Sin documentos en 'campana' para ese campana_id.")
     /\ http_status (get_campana LOCAL_TZ db campana_id) = 404)
  /\ (db q_estacion = [] ->
        get_estacion LOCAL_TZ db campana_id
        = Raise (HTTPException 404
                   "Sin documentos en 'Estacion' para ese campana_id.")
        /\ http_status (get_estacion LOCAL_TZ db campana_id) = 404)
  /\ (forall items,
        fetch_collection LOCAL_TZ db "campana" campana_id = Ok items ->
        items <> [] ->
        json_finite (VList (map VDict items)) = true ->
        get_campana LOCAL_TZ db campana_id
        = Ok {| status_code := 200; content := items |}
        /\ http_status (get_campana LOCAL_TZ db campana_id) = 200
        /\ mapM (doc_to_dict LOCAL_TZ) (db q_campana) = Ok items
        /\ List.length items = List.length (db q_campana))
  /\ (forall items,
        fetch_collection LOCAL_TZ db "estacion" campana_id = Ok items ->
        items <> [] ->
        json_finite (VList (map VDict items)) = true ->
        get_estacion LOCAL_TZ db campana_id
        = Ok {| status_code := 200; content := items |}
        /\ http_status (get_estacion LOCAL_TZ db campana_id) = 200
        /\ mapM (doc_to_dict LOCAL_TZ) (db q_estacion) = Ok items
        /\ List.length items = List.length (db q_estacion))
  /\ (forall r, get_campana LOCAL_TZ db campana_id = Ok r ->
                status_code r = 200 /\ content r <> []
                /\ fetch_collection LOCAL_TZ db "campana" campana_id
                   = Ok (content r))
  /\ (forall r, get_estacion LOCAL_TZ db campana_id = Ok r ->
                status_code r = 200 /\ content r <> []
                /\ fetch_collection LOCAL_TZ db "estacion" campana_id
                   = Ok (content r)).
Proof.
  intros Hqc Hqe.
  unfold get_campana, get_estacion, fetch_collection.
  rewrite Hqc, Hqe. cbn [bind].
  split; [ | split; [ | split; [ | split; [ | split ] ] ] ].
  - intros ->. split; reflexivity.
  - intros ->. split; reflexivity.
  - intros items Hitems Hne Hfin. rewrite Hitems. cbn [bind].
    destruct items as [ | d ds ]; [ contradiction | ].
    rewrite (new_JSONResponse_finite _ Hfin).
    repeat split. exact (mapM_length _ _ Hitems).
  - intros items Hitems Hne Hfin. rewrite Hitems. cbn [bind].
    destruct items as [ | d ds ]; [ contradiction | ].
    rewrite (new_JSONResponse_finite _ Hfin).
    repeat split. exact (mapM_length _ _ Hitems).
  - intros r.
    destruct (mapM (doc_to_dict LOCAL_TZ) (db q_campana)) as [[ | d ds] | e];
      cbn [bind]; try discriminate.
    intros Hr. apply new_JSONResponse_Ok in Hr as [Hstatus Hcontent].
    rewrite Hcontent. split; [ exact Hstatus | split; [ discriminate | reflexivity ] ].
  - intros r.
    destruct (mapM (doc_to_dict LOCAL_TZ) (db q_estacion)) as [[ | d ds] | e];
      cbn [bind]; try discriminate.
    intros Hr. apply new_JSONResponse_Ok in Hr as [Hstatus Hcontent].
    rewrite Hcontent. split; [ exact Hstatus | split; [ discriminate | reflexivity ] ].
Qed.

Lemma get_not_found_or_ok_witness :
  sample_db {| Firestore.collection := "Estacion";
               Firestore.field_path := "campanaID";
               Firestore.op_string := "==";
               Firestore.filter_value := "XYZ" |} = []
  /\ get_estacion utc_minus_3 sample_db "XYZ"
     = Raise (HTTPException 404
                "Sin documentos en 'Estacion' para ese campana_id.")
  /\ http_status (get_estacion utc_minus_3 sample_db "XYZ") = 404
  /\ get_campana utc_minus_3 sample_db "XYZ"
     = Ok {| status_code := 200;
             content := [ [ ("campanaID", VStr "XYZ"); ("nombre", VStr "Test");
                            ("creado", VStr "2024-01-15T12:00:00-03:00");
                            ("id", VStr "doc1") ] ] |}
  /\ http_status (get_campana utc_minus_3 sample_db "XYZ") = 200.
Proof.
  split; [ reflexivity | ].
  destruct (@get_not_found_or_ok utc_minus_3 sample_db "XYZ" _ _
              eq_refl eq_refl) as (_ & Hnone & Hsome & _).
  destruct (Hnone eq_refl) as [Hraise Hstatus].
  destruct (Hsome _ eq_refl ltac:(discriminate) eq_refl)
    as (Hok & Hstatus' & _).
  split; [ exact Hraise | ].
  split; [ exact Hstatus | ].
  split; [ exact Hok | exact Hstatus' ].
Defined.

(** C4, as the claim states it, fails: a document with a field of bytes is
    fetched, the list is not empty, and [JSONResponse] raises [TypeError]
    while it renders it, which the framework answers with status 500; with
    a float that is not a number it raises [ValueError]. *)
Lemma response_not_rendered :
  fetch_collection utc_minus_3 bytes_db "campana" "XYZ"
  = Ok [ [ ("campanaID", VStr "XYZ");
           ("firma", VBytes [Byte.x00; Byte.x01]);
           ("id", VStr "doc5") ] ]
  /\ get_campana utc_minus_3 bytes_db "XYZ" = Raise TypeError
  /\ http_status (get_campana utc_minus_3 bytes_db "XYZ") = 500
  /\ get_estacion utc_minus_3 nan_db "XYZ" = Raise JSONValueError
  /\ http_status (get_estacion utc_minus_3 nan_db "XYZ") = 500
  /\ ~ (forall (LOCAL_TZ : tzinfo) (db : Client) (campana_id : string)
               (items : list dict),
          fetch_collection LOCAL_TZ db "campana" campana_id = Ok items ->
          items <> [] ->
          http_status (get_campana LOCAL_TZ db campana_id) = 200).
Proof.
  split; [ reflexivity | ].
  split; [ vm_compute; reflexivity | ].
  split; [ vm_compute; reflexivity | ].
  split; [ vm_compute; reflexivity | ].
  split; [ vm_compute; reflexivity | ].
  intros H.
  specialize (H utc_minus_3 bytes_db "XYZ"%string _ eq_refl ltac:(discriminate)).
  vm_compute in H. discriminate H.
Qed.

(* ================================================================== *)
(** * Further properties of the code *)

(** ** The normaliser on structures *)

Lemma mapM_Forall2 (A B : Type) (f : A -> res B) (xs : list A) :
  forall ys, mapM f xs = Ok ys <-> Forall2 (fun x y => f x = Ok y) xs ys.
Proof.
  induction xs as [ | x rest IH ]; intros ys; split.
  - intros [= <-]. constructor.
  - intros H. inversion H. reflexivity.
  - intros H. apply mapM_Ok_inv in H as (y & ys' & Hy & Hrest & ->).
    constructor; [ exact Hy | now apply IH ].
  - intros H. inversion H as [ | x' y rest' ys' Hy Hrest ]; subst.
    simpl. rewrite Hy. apply IH in Hrest. now rewrite Hrest.
Qed.

Lemma mapM_fixed (A : Type) (f : A -> res A) (xs : list A) :
  Forall (fun x => f x = Ok x) xs -> mapM f xs = Ok xs.
Proof.
  induction 1 as [ | x rest Hx _ IH ]; [ reflexivity | ].
  simpl. now rewrite Hx, IH.
Qed.

(** X1.  Data that is JSON already is returned as it is: the normaliser
    changes nothing in a value made of strings, numbers, booleans, null,
    lists and mappings. *)
Theorem to_jsonable_json_fixed (LOCAL_TZ : tzinfo) (v : value) :
  json_only v = true -> to_jsonable LOCAL_TZ v = Ok v.
Proof.
  induction v as [ | b | n | x | s | b | p | xs IH | dt ns | dt | lat lon
                 | xs IH | items IH | n | x | b ] using value_ind;
    intros Hjson; try discriminate Hjson; try reflexivity.
  - simpl in Hjson. rewrite forallb_forall in Hjson.
    rewrite to_jsonable_list, mapM_fixed; [ reflexivity | ].
    rewrite Forall_forall in *. intros x Hx. exact (IH x Hx (Hjson x Hx)).
  - simpl in Hjson. rewrite forallb_forall in Hjson.
    rewrite to_jsonable_dict. unfold dict_comprehension.
    rewrite mapM_fixed; [ reflexivity | ].
    rewrite Forall_forall in *. intros [k v] Hkv.
    pose proof (IH _ Hkv (Hjson _ Hkv)) as Hv. cbn [snd] in Hv.
    now rewrite Hv.
Qed.

Lemma to_jsonable_json_fixed_witness :
  json_only (VDict [("a", VList [VInt 1; VNone]); ("b", VStr "x")]) = true
  /\ to_jsonable utc_minus_3 (VDict [("a", VList [VInt 1; VNone]); ("b", VStr "x")])
     = Ok (VDict [("a", VList [VInt 1; VNone]); ("b", VStr "x")]).
Proof.
  split; [ reflexivity | ].
  apply (@to_jsonable_json_fixed utc_minus_3); reflexivity.
Defined.

(** X2.  Whatever the input, a result of the normaliser holds no timestamp,
    no geo-point and no scalar of the numeric library at any depth of its
    lists and mappings: what is left that is not JSON is of a kind the
    normaliser has no test for. *)
Theorem to_jsonable_normalized (LOCAL_TZ : tzinfo) (v r : value) :
  to_jsonable LOCAL_TZ v = Ok r -> normalized r = true.
Proof.
  revert r.
  induction v as [ | b | n | x | s | b | p | xs IH | dt ns | dt | lat lon
                 | xs IH | items IH | n | x | b ] using value_ind;
    intros r H;
    try (injection H as <-; reflexivity).
  - rewrite to_jsonable_datetime in H.
    destruct (astimezone _ _ _) as [local | e]; simpl in H; [ | discriminate ].
    injection H as <-. reflexivity.
  - rewrite to_jsonable_list in H.
    destruct (mapM (to_jsonable LOCAL_TZ) xs) as [ys | e] eqn:Hys;
      simpl in H; [ | discriminate ].
    injection H as <-. simpl.
    exact (mapM_forallb _ normalized IH Hys).
  - rewrite to_jsonable_dict in H.
    destruct (dict_comprehension (to_jsonable LOCAL_TZ) items)
      as [out | e] eqn:Hout; simpl in H; [ | discriminate ].
    injection H as <-. simpl.
    unfold dict_comprehension in Hout.
    eapply mapM_forallb; [ | exact Hout ].
    rewrite Forall_forall in *. intros [k v] Hkv [k' r].
    destruct (to_jsonable LOCAL_TZ v) as [r' | e] eqn:Hr; simpl;
      [ | discriminate ].
    intros [= <- <-]. exact (IH _ Hkv _ Hr).
Qed.

Lemma to_jsonable_normalized_witness :
  to_jsonable utc_minus_3
    (VList [VNpInteger 3; VBytes [Byte.x00]; VGeoPoint 1%float 2%float])
  = Ok (VList [VInt 3; VBytes [Byte.x00];
               VDict [("latitude", VFloat 1%float);
                      ("longitude", VFloat 2%float)]])
  /\ normalized (VList [VInt 3; VBytes [Byte.x00];
                        VDict [("latitude", VFloat 1%float);
                               ("longitude", VFloat 2%float)]]) = true.
Proof.
  split; [ reflexivity | ].
  apply (@to_jsonable_normalized utc_minus_3
           (VList [VNpInteger 3; VBytes [Byte.x00]; VGeoPoint 1%float 2%float])).
  reflexivity.
Defined.

(** X3.  Lists and mappings keep their shape: the result of a list is a
    list of the same length whose elements are the results of the elements,
    in order; the result of a mapping is a mapping with the same keys in the
    same order, each bound to the result of its value. *)
Theorem to_jsonable_shape (LOCAL_TZ : tzinfo) :
  (forall xs r,
      to_jsonable LOCAL_TZ (VList xs) = Ok r ->
      exists ys,
        r = VList ys
        /\ List.length ys = List.length xs
        /\ Forall2 (fun x y => to_jsonable LOCAL_TZ x = Ok y) xs ys)
  /\ (forall items r,
        to_jsonable LOCAL_TZ (VDict items) = Ok r ->
        exists out,
          r = VDict out
          /\ dict_keys out = dict_keys items
          /\ Forall2 (fun kv kr => fst kr = fst kv
                                   /\ to_jsonable LOCAL_TZ (snd kv) = Ok (snd kr))
               items out).
Proof.
  split.
  - intros xs r H. rewrite to_jsonable_list in H.
    destruct (mapM (to_jsonable LOCAL_TZ) xs) as [ys | e] eqn:Hys;
      simpl in H; [ | discriminate ].
    injection H as <-. exists ys.
    split; [ reflexivity | split ].
    + exact (mapM_length _ _ Hys).
    + now apply mapM_Forall2.
  - intros items r H. rewrite to_jsonable_dict in H.
    destruct (dict_comprehension (to_jsonable LOCAL_TZ) items)
      as [out | e] eqn:Hout; simpl in H; [ | discriminate ].
    injection H as <-. exists out.
    split; [ reflexivity | split ].
    + exact (dict_comprehension_keys _ _ Hout).
    + unfold dict_comprehension in Hout. apply mapM_Forall2 in Hout.
      induction Hout as [ | [k v] [k' r] rest out' Hkv _ IH ];
        constructor; [ | exact IH ].
      cbn [fst snd].
      destruct (to_jsonable LOCAL_TZ v) as [r' | e]; simpl in Hkv;
        [ | discriminate ].
      injection Hkv as <- <-. now split.
Qed.

Lemma to_jsonable_shape_witness :
  to_jsonable utc_minus_3 (VList [VNpInteger 3; VNpBool true])
  = Ok (VList [VInt 3; VBool true])
  /\ exists ys,
       VList [VInt 3; VBool true] = VList ys
       /\ List.length ys = 2%nat
       /\ Forall2 (fun x y => to_jsonable utc_minus_3 x = Ok y)
            [VNpInteger 3; VNpBool true] ys.
Proof.
  split; [ reflexivity | ].
  apply (proj1 (to_jsonable_shape utc_minus_3) [VNpInteger 3; VNpBool true]).
  reflexivity.
Defined.

(** ** The identifier and its quotes *)

Lemma list_ascii_of_string_append (a b : string) :
  list_ascii_of_string (a ++ b)
  = (list_ascii_of_string a ++ list_ascii_of_string b)%list.
Proof.
  induction a as [ | c a IH ]; [ reflexivity | ].
  simpl. now rewrite IH.
Qed.

Lemma lstrip_quote_cons (l : list ascii) :
  lstrip [DQUOTE] (DQUOTE :: l) = lstrip [DQUOTE] l.
Proof. reflexivity. Qed.

Lemma rstrip_app_quote (l : list ascii) :
  rstrip [DQUOTE] (l ++ [DQUOTE]) = rstrip [DQUOTE] l.
Proof. unfold rstrip. now rewrite rev_app_distr. Qed.

Lemma strip_list_app_quote (l : list ascii) :
  rstrip [DQUOTE] (lstrip [DQUOTE] (l ++ [DQUOTE]))
  = rstrip [DQUOTE] (lstrip [DQUOTE] l).
Proof.
  induction l as [ | c l IH ]; [ reflexivity | ].
  cbn [app lstrip existsb]. rewrite orb_false_r.
  destruct (Ascii.eqb c DQUOTE); [ exact IH | ].
  exact (rstrip_app_quote (c :: l)).
Qed.

Lemma strip_quoted (s : string) :
  strip (String DQUOTE EmptyString) (quoted s)
  = strip (String DQUOTE EmptyString) s.
Proof.
  unfold strip, quoted. cbn [list_ascii_of_string].
  rewrite list_ascii_of_string_append. cbn [list_ascii_of_string].
  now rewrite lstrip_quote_cons, strip_list_app_quote.
Qed.

Lemma lstrip_clean (l : list ascii) :
  (forall rest, l <> DQUOTE :: rest) -> lstrip [DQUOTE] l = l.
Proof.
  intros Hhead. destruct l as [ | c l ]; [ reflexivity | ].
  cbn [lstrip existsb]. rewrite orb_false_r.
  destruct (Ascii.eqb c DQUOTE) eqn:Hc; [ | reflexivity ].
  apply Ascii.eqb_eq in Hc. subst c. now destruct (Hhead l).
Qed.

Lemma rstrip_clean (l : list ascii) :
  (forall init, l <> (init ++ [DQUOTE])%list) -> rstrip [DQUOTE] l = l.
Proof.
  intros Hlast. unfold rstrip.
  rewrite lstrip_clean; [ apply rev_involutive | ].
  intros rest H. apply (Hlast (rev rest)).
  rewrite <- (rev_involutive l), H. reflexivity.
Qed.

Lemma strip_clean (s : string) :
  (forall rest, list_ascii_of_string s <> DQUOTE :: rest) ->
  (forall init, list_ascii_of_string s <> (init ++ [DQUOTE])%list) ->
  strip (String DQUOTE EmptyString) s = s.
Proof.
  intros Hhead Hlast. unfold strip. cbn [list_ascii_of_string].
  rewrite lstrip_clean by exact Hhead.
  rewrite rstrip_clean by exact Hlast.
  apply string_of_list_ascii_of_string.
Qed.

(** X4.  Putting an identifier between a pair of double quotes, any number
    of times, changes neither the query, nor the result of
    [fetch_collection], nor the answer of either handler. *)
Theorem fetch_ignores_quoting
  (LOCAL_TZ : tzinfo) (db : Client) (key campana_id : string) (n : nat) :
  col_ref key (Nat.iter n quoted campana_id) = col_ref key campana_id
  /\ fetch_collection LOCAL_TZ db key (Nat.iter n quoted campana_id)
     = fetch_collection LOCAL_TZ db key campana_id
  /\ get_campana LOCAL_TZ db (Nat.iter n quoted campana_id)
     = get_campana LOCAL_TZ db campana_id
  /\ get_estacion LOCAL_TZ db (Nat.iter n quoted campana_id)
     = get_estacion LOCAL_TZ db campana_id.
Proof.
  assert (strip (String DQUOTE EmptyString) (Nat.iter n quoted campana_id)
          = strip (String DQUOTE EmptyString) campana_id) as Hstrip.
  { induction n as [ | n IH ]; [ reflexivity | ].
    cbn [Nat.iter nat_rect]. now rewrite strip_quoted. }
  assert (forall k, col_ref k (Nat.iter n quoted campana_id)
                    = col_ref k campana_id) as Hq.
  { intros k. unfold col_ref. now rewrite Hstrip. }
  assert (forall k, fetch_collection LOCAL_TZ db k (Nat.iter n quoted campana_id)
                    = fetch_collection LOCAL_TZ db k campana_id) as Hfetch.
  { intros k. unfold fetch_collection. now rewrite Hq. }
  split; [ apply Hq | split; [ apply Hfetch | split ] ].
  - unfold get_campana. now rewrite Hfetch.
  - unfold get_estacion. now rewrite Hfetch.
Qed.

(** X5.  An identifier that neither starts nor ends with a double quote is
    used as it is, quotes inside it included; and the filter value is such
    an identifier, so that fetching with the filter value of an identifier
    is fetching with the identifier. *)
Theorem fetch_filter_value_stable
  (LOCAL_TZ : tzinfo) (db : Client) (key campana_id : string)
  (cfg : collection_config) :
  getitem COLLECTIONS key = Ok cfg ->
  ((forall rest, list_ascii_of_string campana_id <> DQUOTE :: rest) ->
   (forall init, list_ascii_of_string campana_id <> (init ++ [DQUOTE])%list) ->
   exists q, col_ref key campana_id = Ok q
             /\ Firestore.filter_value q = campana_id)
  /\ (forall q, col_ref key campana_id = Ok q ->
                col_ref key (Firestore.filter_value q) = Ok q
                /\ fetch_collection LOCAL_TZ db key (Firestore.filter_value q)
                   = fetch_collection LOCAL_TZ db key campana_id).
Proof.
  intros Hcfg.
  assert (strip (String DQUOTE EmptyString)
            (strip (String DQUOTE EmptyString) campana_id)
          = strip (String DQUOTE EmptyString) campana_id) as Hidem.
  { destruct (strip_quotes campana_id) as (n & m & _ & Hhead & Hlast).
    now apply strip_clean. }
  split.
  - intros Hhead Hlast. unfold col_ref. rewrite Hcfg. cbn [bind].
    eexists. split; [ reflexivity | ].
    cbn [Firestore.filter_value]. now apply strip_clean.
  - intros q Hq. unfold col_ref in Hq. rewrite Hcfg in Hq. cbn [bind] in Hq.
    injection Hq as <-. cbn [Firestore.filter_value].
    assert (col_ref key (strip (String DQUOTE EmptyString) campana_id)
            = col_ref key campana_id) as Hcol.
    { unfold col_ref. now rewrite Hidem. }
    split.
    + rewrite Hcol. unfold col_ref. now rewrite Hcfg.
    + unfold fetch_collection. now rewrite Hcol.
Qed.

Lemma fetch_filter_value_stable_witness :
  getitem COLLECTIONS "campana"
  = Ok {| name := "campana"; filter_field := "campanaID" |}
  /\ exists q,
       col_ref "campana" (String "a" (String DQUOTE "b")) = Ok q
       /\ Firestore.filter_value q = String "a" (String DQUOTE "b").
Proof.
  split; [ reflexivity | ].
  apply (proj1 (@fetch_filter_value_stable utc_minus_3 sample_db "campana"
                  (String "a" (String DQUOTE "b")) _ eq_refl)).
  - intros rest H. discriminate H.
  - intros init H. apply (f_equal (@rev ascii)) in H.
    rewrite rev_app_distr in H. discriminate H.
Defined.

(** X6.  The two collection keys are the only ones: with any other key
    [fetch_collection] raises [KeyError] for that key, whatever the store
    holds, and with one of the two the lookup succeeds. *)
Theorem fetch_unknown_key
  (LOCAL_TZ : tzinfo) (db : Client) (key campana_id : string) :
  (key <> "campana" -> key <> "estacion" ->
   col_ref key campana_id = Raise (KeyError key)
   /\ fetch_collection LOCAL_TZ db key campana_id = Raise (KeyError key))
  /\ (key = "campana" \/ key = "estacion" ->
      exists q, col_ref key campana_id = Ok q
                /\ Firestore.field_path q = "campanaID").
Proof.
  split.
  - intros Hc He.
    assert (getitem COLLECTIONS key = Raise (KeyError key)) as Hget.
    { unfold COLLECTIONS. cbn [getitem].
      destruct (String.eqb "campana" key) eqn:H1;
        [ apply String.eqb_eq in H1; congruence | ].
      destruct (String.eqb "estacion" key) eqn:H2;
        [ apply String.eqb_eq in H2; congruence | ].
      reflexivity. }
    unfold fetch_collection, col_ref. rewrite Hget. split; reflexivity.
  - intros [-> | ->]; eexists; split; reflexivity.
Qed.

Lemma fetch_unknown_key_witness :
  "Estacion" <> "campana" /\ "Estacion" <> "estacion"
  /\ fetch_collection utc_minus_3 sample_db "Estacion" "XYZ"
     = Raise (KeyError "Estacion").
Proof.
  split; [ discriminate | split; [ discriminate | ] ].
  apply (proj1 (@fetch_unknown_key utc_minus_3 sample_db "Estacion" "XYZ"));
    discriminate.
Defined.

(** ** Documents *)

Lemma dict_keys_set_order (d : dict) (k : string) (v : value) :
  dict_keys (dict_set d k v)
  = if existsb (fun k' => String.eqb k' k) (dict_keys d)
    then dict_keys d
    else (dict_keys d ++ [k])%list.
Proof.
  unfold dict_keys. induction d as [ | [k0 v0] rest IH ]; [ reflexivity | ].
  cbn [dict_set map fst existsb].
  destruct (String.eqb k0 k) eqn:Hk; [ reflexivity | ].
  cbn [map fst orb]. rewrite IH.
  now destruct (existsb _ _).
Qed.

Lemma forallb_dict_set (p : value -> bool) (d : dict) (k : string) (v : value) :
  forallb (fun kv => p (snd kv)) d = true ->
  p v = true ->
  forallb (fun kv => p (snd kv)) (dict_set d k v) = true.
Proof.
  intros Hd Hv. induction d as [ | [k0 v0] rest IH ].
  - simpl. now rewrite Hv.
  - simpl in Hd. apply andb_true_iff in Hd as [H0 Hrest].
    cbn [dict_set]. destruct (String.eqb k0 k).
    + simpl. now rewrite Hv, Hrest.
    + simpl. now rewrite H0, (IH Hrest).
Qed.

Lemma doc_to_dict_unfold (LOCAL_TZ : tzinfo) (doc : DocumentSnapshot) :
  doc_to_dict LOCAL_TZ doc
  = (data <- dict_comprehension (to_jsonable LOCAL_TZ) (fields_or_empty doc) ;;
     Ok (dict_set data "id" (VStr (Firestore.id doc)))).
Proof. reflexivity. Qed.

(** X7.  The normalised document keeps the fields in their stored order;
    the key ["id"] comes last when no stored field has that name, and stays
    where the stored field is otherwise. *)
Theorem doc_to_dict_key_order
  (LOCAL_TZ : tzinfo) (doc : DocumentSnapshot) (data : dict) :
  doc_to_dict LOCAL_TZ doc = Ok data ->
  dict_keys data
  = if existsb (fun k => String.eqb k "id") (dict_keys (fields_or_empty doc))
    then dict_keys (fields_or_empty doc)
    else (dict_keys (fields_or_empty doc) ++ ["id"])%list.
Proof.
  rewrite doc_to_dict_unfold.
  destruct (dict_comprehension (to_jsonable LOCAL_TZ) (fields_or_empty doc))
    as [out | e] eqn:Hout; simpl; [ | discriminate ].
  intros [= <-].
  rewrite dict_keys_set_order.
  now rewrite (dict_comprehension_keys _ _ Hout).
Qed.

Lemma doc_to_dict_key_order_witness :
  doc_to_dict utc_minus_3 doc_with_id_field
  = Ok [ ("id", VStr "doc2"); ("nombre", VStr "Test") ]
  /\ dict_keys [ ("id", VStr "doc2"); ("nombre", VStr "Test") ]
     = ["id"; "nombre"]
  /\ dict_keys [ ("campanaID", VStr "XYZ"); ("nombre", VStr "Test");
                 ("creado", VStr "2024-01-15T12:00:00-03:00");
                 ("id", VStr "doc1") ]
     = ["campanaID"; "nombre"; "creado"; "id"].
Proof.
  split; [ reflexivity | split ].
  - exact (@doc_to_dict_key_order utc_minus_3 doc_with_id_field _ eq_refl).
  - exact (@doc_to_dict_key_order utc_minus_3 sample_doc _ eq_refl).
Defined.

(** X8.  A document whose fields are of the kinds of section 3 converts to
    a mapping in which every value, the identifier included, has JSON types
    only. *)
Theorem doc_to_dict_json_only
  (LOCAL_TZ : tzinfo) (doc : DocumentSnapshot) (data : dict) :
  document_value (VDict (fields_or_empty doc)) = true ->
  doc_to_dict LOCAL_TZ doc = Ok data ->
  json_only (VDict data) = true.
Proof.
  intros Hdoc. rewrite doc_to_dict_unfold.
  destruct (dict_comprehension (to_jsonable LOCAL_TZ) (fields_or_empty doc))
    as [out | e] eqn:Hout; simpl; [ | discriminate ].
  intros [= <-].
  apply forallb_dict_set; [ | reflexivity ].
  assert (to_jsonable LOCAL_TZ (VDict (fields_or_empty doc)) = Ok (VDict out))
    as Hnorm by (rewrite to_jsonable_dict, Hout; reflexivity).
  exact (to_jsonable_document_value LOCAL_TZ _ Hdoc Hnorm).
Qed.

Lemma doc_to_dict_json_only_witness :
  document_value (VDict (fields_or_empty sample_doc)) = true
  /\ doc_to_dict utc_minus_3 sample_doc
     = Ok [ ("campanaID", VStr "XYZ"); ("nombre", VStr "Test");
            ("creado", VStr "2024-01-15T12:00:00-03:00");
            ("id", VStr "doc1") ]
  /\ json_only (VDict [ ("campanaID", VStr "XYZ"); ("nombre", VStr "Test");
                        ("creado", VStr "2024-01-15T12:00:00-03:00");
                        ("id", VStr "doc1") ]) = true.
Proof.
  split; [ reflexivity | split; [ reflexivity | ] ].
  apply (@doc_to_dict_json_only utc_minus_3 sample_doc); reflexivity.
Defined.

(** ** The fetch and the handlers *)

Lemma doc_to_dict_id (LOCAL_TZ : tzinfo) (doc : DocumentSnapshot) (data : dict) :
  doc_to_dict LOCAL_TZ doc = Ok data ->
  dict_get data "id" = Some (VStr (Firestore.id doc)).
Proof.
  rewrite doc_to_dict_unfold.
  destruct (dict_comprehension _ _) as [out | e]; simpl; [ | discriminate ].
  intros [= <-]. apply dict_get_set_eq.
Qed.

Lemma doc_to_dict_total (LOCAL_TZ : tzinfo) (doc : DocumentSnapshot) :
  converts_aware_datetime (VDict (fields_or_empty doc)) = false ->
  exists data, doc_to_dict LOCAL_TZ doc = Ok data.
Proof.
  intros Hfree.
  destruct (to_jsonable_total LOCAL_TZ _ Hfree) as [r Hr].
  rewrite to_jsonable_dict in Hr. rewrite doc_to_dict_unfold.
  destruct (dict_comprehension _ _) as [out | e]; simpl in *;
    [ eauto | discriminate ].
Qed.

(** X9.  The fetched list follows the store's answer: it has one normalised
    document for each document of the answer, in the same order, and each
    one carries the identifier of its document under ["id"]. *)
Theorem fetch_collection_follows_store
  (LOCAL_TZ : tzinfo) (db : Client) (key campana_id : string)
  (q : Query) (items : list dict) :
  col_ref key campana_id = Ok q ->
  fetch_collection LOCAL_TZ db key campana_id = Ok items ->
  List.length items = List.length (db q)
  /\ Forall2 (fun doc item =>
                doc_to_dict LOCAL_TZ doc = Ok item
                /\ dict_get item "id" = Some (VStr (Firestore.id doc)))
       (db q) items
  /\ map (fun item => dict_get item "id") items
     = map (fun doc => Some (VStr (Firestore.id doc))) (db q).
Proof.
  intros Hq. unfold fetch_collection. rewrite Hq. cbn [bind]. intros Hitems.
  split; [ exact (mapM_length _ _ Hitems) | ].
  apply mapM_Forall2 in Hitems.
  split.
  - induction Hitems as [ | doc item docs items' Hdoc _ IH ];
      constructor; [ | exact IH ].
    split; [ exact Hdoc | exact (doc_to_dict_id _ _ Hdoc) ].
  - induction Hitems as [ | doc item docs items' Hdoc _ IH ];
      [ reflexivity | ].
    simpl. now rewrite IH, (doc_to_dict_id _ _ Hdoc).
Qed.

Lemma fetch_collection_follows_store_witness :
  col_ref "campana" "XYZ"
  = Ok {| Firestore.collection := "campana";
          Firestore.field_path := "campanaID";
          Firestore.op_string := "==";
          Firestore.filter_value := "XYZ" |}
  /\ exists items,
       fetch_collection utc_minus_3 sample_db "campana" "XYZ" = Ok items
       /\ List.length items = 1%nat
       /\ map (fun item => dict_get item "id") items = [Some (VStr "doc1")].
Proof.
  split; [ reflexivity | ].
  eexists. split; [ reflexivity | ].
  destruct (@fetch_collection_follows_store utc_minus_3 sample_db
              "campana" "XYZ" _ _ eq_refl eq_refl) as (Hlen & _ & Hids).
  split; [ exact Hlen | exact Hids ].
Defined.

Lemma doc_to_dict_json_finite
  (LOCAL_TZ : tzinfo) (doc : DocumentSnapshot) (data : dict) :
  document_value (VDict (fields_or_empty doc)) = true ->
  finite_numbers (VDict (fields_or_empty doc)) = true ->
  doc_to_dict LOCAL_TZ doc = Ok data ->
  json_finite (VDict data) = true.
Proof.
  intros Hdoc Hfin. rewrite doc_to_dict_unfold.
  destruct (dict_comprehension (to_jsonable LOCAL_TZ) (fields_or_empty doc))
    as [out | e] eqn:Hout; simpl; [ | discriminate ].
  intros [= <-].
  apply forallb_dict_set; [ | reflexivity ].
  assert (to_jsonable LOCAL_TZ (VDict (fields_or_empty doc)) = Ok (VDict out))
    as Hnorm by (rewrite to_jsonable_dict, Hout; reflexivity).
  exact (to_jsonable_json_finite LOCAL_TZ _ Hdoc Hfin Hnorm).
Qed.

(** X10.  When every document of the store has fields of the kinds of
    section 3 that the store yields (no bytes, no reference) and no float
    that is NaN or an infinity, each handler answers 200 with one normalised
    document for each document of the store's answer when there is at least
    one, and raises [HTTPException] 404 when there is none. *)
Theorem handlers_answer_200_or_404
  (LOCAL_TZ : tzinfo) (db : Client) (campana_id : string)
  (q_campana q_estacion : Query) :
  (forall q doc, In doc (db q) ->
                 store_document_value (VDict (fields_or_empty doc)) = true
                 /\ finite_numbers (VDict (fields_or_empty doc)) = true) ->
  col_ref "campana" campana_id = Ok q_campana ->
  col_ref "estacion" campana_id = Ok q_estacion ->
  match db q_campana with
  | [] =>
      get_campana LOCAL_TZ db campana_id
      = Raise (HTTPException 404
                 "Sin documentos en 'campana' para ese campana_id.")
  | _ :: _ =>
      exists items,
        get_campana LOCAL_TZ db campana_id
        = Ok {| status_code := 200; content := items |}
        /\ mapM (doc_to_dict LOCAL_TZ) (db q_campana) = Ok items
        /\ List.length items = List.length (db q_campana)
  end
  /\ match db q_estacion with
     | [] =>
         get_estacion LOCAL_TZ db campana_id
         = Raise (HTTPException 404
                    "Sin documentos en 'Estacion' para ese campana_id.")
     | _ :: _ =>
         exists items,
           get_estacion LOCAL_TZ db campana_id
           = Ok {| status_code := 200; content := items |}
           /\ mapM (doc_to_dict LOCAL_TZ) (db q_estacion) = Ok items
           /\ List.length items = List.length (db q_estacion)
     end.
Proof.
  intros Hstore Hqc Hqe.
  assert (forall q, exists items,
             mapM (doc_to_dict LOCAL_TZ) (db q) = Ok items
             /\ List.length items = List.length (db q)
             /\ json_finite (VList (map VDict items)) = true) as Hfetch.
  { intros q.
    destruct (@mapM_total _ _ (doc_to_dict LOCAL_TZ) (db q)) as [items Hitems].
    - apply Forall_forall. intros doc Hdoc.
      destruct (Hstore q doc Hdoc) as [Hs _].
      apply doc_to_dict_total.
      exact (proj2 (store_document_value_document _ Hs)).
    - exists items.
      split; [ exact Hitems | split; [ exact (mapM_length _ _ Hitems) | ] ].
      cbn [json_finite]. apply forallb_forall. intros v Hv.
      apply in_map_iff in Hv as (data & <- & Hdata).
      apply mapM_Forall2 in Hitems.
      assert (exists doc, In doc (db q) /\ doc_to_dict LOCAL_TZ doc = Ok data)
        as (doc & Hdoc & Hconv).
      { clear Hstore. induction Hitems as [ | doc item docs items' Hd _ IH ];
          [ destruct Hdata | ].
        destruct Hdata as [<- | Hin].
        - exists doc. split; [ now left | exact Hd ].
        - destruct (IH Hin) as (doc' & Hdoc' & Hconv').
          exists doc'. split; [ now right | exact Hconv' ]. }
      destruct (Hstore q doc Hdoc) as [Hs Hf].
      exact (doc_to_dict_json_finite LOCAL_TZ doc
               (proj1 (store_document_value_document _ Hs)) Hf Hconv). }
  unfold get_campana, get_estacion, fetch_collection.
  rewrite Hqc, Hqe. cbn [bind].
  split.
  - destruct (Hfetch q_campana) as (items & Hitems & Hlen & Hfin).
    rewrite Hitems. cbn [bind].
    destruct (db q_campana) as [ | doc docs ];
      destruct items as [ | item items' ]; try discriminate Hlen.
    + reflexivity.
    + eexists. rewrite (new_JSONResponse_finite _ Hfin).
      split; [ reflexivity | split; [ reflexivity | exact Hlen ] ].
  - destruct (Hfetch q_estacion) as (items & Hitems & Hlen & Hfin).
    rewrite Hitems. cbn [bind].
    destruct (db q_estacion) as [ | doc docs ];
      destruct items as [ | item items' ]; try discriminate Hlen.
    + reflexivity.
    + eexists. rewrite (new_JSONResponse_finite _ Hfin).
      split; [ reflexivity | split; [ reflexivity | exact Hlen ] ].
Qed.

Lemma handlers_answer_200_or_404_witness :
  (forall q doc, In doc (sample_db q) ->
                 store_document_value (VDict (fields_or_empty doc)) = true
                 /\ finite_numbers (VDict (fields_or_empty doc)) = true)
  /\ (exists items,
         get_campana utc_minus_3 sample_db "XYZ"
         = Ok {| status_code := 200; content := items |}
         /\ mapM (doc_to_dict utc_minus_3) [sample_doc] = Ok items
         /\ List.length items = 1%nat)
  /\ get_estacion utc_minus_3 sample_db "XYZ"
     = Raise (HTTPException 404
                "Sin documentos en 'Estacion' para ese campana_id.").
Proof.
  assert (forall q doc, In doc (sample_db q) ->
            store_document_value (VDict (fields_or_empty doc)) = true
            /\ finite_numbers (VDict (fields_or_empty doc)) = true)
    as Hstore.
  { intros q doc. unfold sample_db.
    destruct (_ && _); [ | intros [] ].
    intros [<- | []]. split; reflexivity. }
  split; [ exact Hstore | ].
  exact (@handlers_answer_200_or_404 utc_minus_3 sample_db "XYZ" _ _
           Hstore eq_refl eq_refl).
Defined.

(** ** The calendar *)

Lemma all_from_spec (p : Z -> bool) (count : nat) :
  forall start, all_from p count start = true ->
  forall k, start <= k < start + Z.of_nat count -> p k = true.
Proof.
  induction count as [ | count IH ]; intros start H k Hk; [ lia | ].
  simpl in H. apply andb_true_iff in H as [Hs Hrest].
  destruct (Z.eq_dec k start) as [-> | Hne]; [ exact Hs | ].
  apply (IH (start + 1) Hrest). lia.
Qed.

Lemma month_day_checked :
  all_from (month_day_ok false) 365 0 && all_from (month_day_ok true) 365 0
  = true.
Proof. vm_compute. reflexivity. Qed.

Lemma month_day_spec (n : Z) (leapyear : bool) :
  0 <= n < 365 ->
  let (m, d) := month_day n leapyear in
  1 <= m <= 12 /\ 1 <= d
  /\ d <= Calendar.DAYS_IN_MONTH m + (if (m =? 2) && leapyear then 1 else 0)
  /\ Calendar.DAYS_BEFORE_MONTH m
     + (if (2 <? m) && leapyear then 1 else 0) + d = n + 1.
Proof.
  intros Hn.
  pose proof month_day_checked as H. apply andb_true_iff in H as [Hf Ht].
  assert (month_day_ok leapyear n = true) as Hok.
  { destruct leapyear;
      [ eapply all_from_spec; [ exact Ht | ]
      | eapply all_from_spec; [ exact Hf | ] ]; lia. }
  unfold month_day_ok in Hok. destruct (month_day n leapyear) as [m d].
  rewrite !andb_true_iff, !Z.leb_le, Z.eqb_eq in Hok. lia.
Qed.

Lemma ord2ymd_eq (ordinal : Z) :
  Calendar.ord2ymd ordinal
  = let n := ordinal - 1 in
    let q := n / 146097 in
    let r := n mod 146097 in
    let a := r / 36524 in
    let r1 := r mod 36524 in
    let b := r1 / 1461 in
    let r2 := r1 mod 1461 in
    let c := r2 / 365 in
    let d0 := r2 mod 365 in
    let y := q * 400 + 1 + a * 100 + b * 4 + c in
    if (c =? 4) || (a =? 4) then (y - 1, 12, 31)
    else
      let (m, d) :=
        month_day d0 ((c =? 3) && (negb (b =? 24) || (a =? 3))) in
      (y, m, d).
Proof.
  unfold Calendar.ord2ymd, month_day, Calendar.DI400Y, Calendar.DI100Y,
    Calendar.DI4Y.
  cbv zeta.
  destruct (_ || _); [ reflexivity | ].
  destruct (_ <? _); reflexivity.
Qed.

Ltac decide_mod_tests :=
  repeat match goal with
         | |- context [ (?x mod ?k =? 0) ] =>
             destruct (Z.eqb_spec (x mod k) 0)
         end;
  cbn [andb orb negb]; try reflexivity;
  exfalso; Z.to_euclidean_division_equations; lia.

Lemma ord2ymd_spec (ordinal : Z) :
  1 <= ordinal ->
  let '(y, m, d) := Calendar.ord2ymd ordinal in
  Calendar.ymd2ord y m d = ordinal
  /\ 1 <= m <= 12
  /\ 1 <= d <= Calendar.days_in_month y m
  /\ 1 <= y
  /\ (ordinal <= Calendar.MAXORDINAL -> y <= Calendar.MAXYEAR).
Proof.
  intros Hpos. rewrite ord2ymd_eq. cbv zeta.
  pose proof (Z.div_mod (ordinal - 1) 146097 ltac:(lia)) as Eq.
  pose proof (Z.mod_pos_bound (ordinal - 1) 146097 ltac:(lia)) as Br.
  assert (0 <= (ordinal - 1) / 146097) as Bq by (apply Z.div_pos; lia).
  set (q := (ordinal - 1) / 146097) in *.
  set (r := (ordinal - 1) mod 146097) in *.
  pose proof (Z.div_mod r 36524 ltac:(lia)) as Ea.
  pose proof (Z.mod_pos_bound r 36524 ltac:(lia)) as Br1.
  set (a := r / 36524) in *. set (r1 := r mod 36524) in *.
  pose proof (Z.div_mod r1 1461 ltac:(lia)) as Eb.
  pose proof (Z.mod_pos_bound r1 1461 ltac:(lia)) as Br2.
  set (b := r1 / 1461) in *. set (r2 := r1 mod 1461) in *.
  pose proof (Z.div_mod r2 365 ltac:(lia)) as Ec.
  pose proof (Z.mod_pos_bound r2 365 ltac:(lia)) as Bd.
  set (c := r2 / 365) in *. set (d0 := r2 mod 365) in *.
  clearbody q r a r1 b r2 c d0.
  assert (0 <= a <= 4) as Ba by lia.
  assert (0 <= b <= 24) as Bb by lia.
  assert (0 <= c <= 4) as Bc by lia.
  unfold Calendar.MAXORDINAL, Calendar.MAXYEAR.
  destruct (Z.eqb_spec c 4) as [Hc4 | Hc4]; [ | destruct (Z.eqb_spec a 4) as [Ha4 | Ha4] ];
    cbn [orb].
  - (* the last day of a leap year that ends a four-year cycle *)
    assert (Calendar.is_leap (q * 400 + 1 + a * 100 + b * 4 + c - 1) = true) as Hleap.
    { unfold Calendar.is_leap. subst c. decide_mod_tests. }
    unfold Calendar.ymd2ord, Calendar.days_before_month, Calendar.days_in_month,
      Calendar.days_before_year.
    rewrite Hleap. cbn [Z.ltb Z.eqb Z.compare Pos.compare Pos.compare_cont andb
                         Calendar.DAYS_BEFORE_MONTH Calendar.DAYS_IN_MONTH].
    repeat split; try lia; try (cbn; lia).
    Z.to_euclidean_division_equations; lia.
  - (* the last day of a cycle of 400 years *)
    assert (Calendar.is_leap (q * 400 + 1 + a * 100 + b * 4 + c - 1) = true) as Hleap.
    { unfold Calendar.is_leap.
      assert (b = 0 /\ c = 0) as [-> ->] by lia. subst a. decide_mod_tests. }
    unfold Calendar.ymd2ord, Calendar.days_before_month, Calendar.days_in_month,
      Calendar.days_before_year.
    rewrite Hleap. cbn [Z.ltb Z.eqb Z.compare Pos.compare Pos.compare_cont andb
                         Calendar.DAYS_BEFORE_MONTH Calendar.DAYS_IN_MONTH].
    repeat split; try lia; try (cbn; lia).
    Z.to_euclidean_division_equations; lia.
  - (* any other day *)
    set (leapyear := (c =? 3) && (negb (b =? 24) || (a =? 3))).
    assert (Calendar.is_leap (q * 400 + 1 + a * 100 + b * 4 + c) = leapyear)
      as Hleap.
    { unfold Calendar.is_leap, leapyear.
      destruct (Z.eqb_spec c 3), (Z.eqb_spec b 24), (Z.eqb_spec a 3);
        cbn [andb orb negb]; decide_mod_tests. }
    pose proof (@month_day_spec d0 leapyear Bd) as Hmd.
    destruct (month_day d0 leapyear) as [m d].
    destruct Hmd as (Hm & Hd1 & Hd2 & Hsum).
    unfold Calendar.ymd2ord, Calendar.days_before_month, Calendar.days_in_month.
    rewrite Hleap.
    assert (Calendar.days_before_year (q * 400 + 1 + a * 100 + b * 4 + c)
            = 146097 * q + 36524 * a + 1461 * b + 365 * c) as ->.
    { unfold Calendar.days_before_year. Z.to_euclidean_division_equations; lia. }
    repeat split; try lia.
    destruct ((m =? 2) && leapyear) eqn:Hfeb; [ | lia ].
    apply andb_true_iff in Hfeb as [Hm2 _]. apply Z.eqb_eq in Hm2. subst m.
    cbn in Hd2. lia.
Qed.

(** Adding a [timedelta] moves the reading by that much and gives a reading
    that a [datetime] can hold. *)
Lemma add_timedelta_us (w w' : wall) (delta_us : Z) :
  add_timedelta w delta_us = Ok w' ->
  wall_us w' = wall_us w + delta_us /\ wall_ok w' = true.
Proof.
  unfold add_timedelta, US_PER_DAY, US_PER_SECOND.
  set (total := wall_us w + delta_us).
  destruct ((0 <? total / (86400 * 1000000))
            && (total / (86400 * 1000000) <=? Calendar.MAXORDINAL)) eqn:Hrange;
    [ | discriminate ].
  apply andb_true_iff in Hrange as [Hlo Hhi].
  apply Z.ltb_lt in Hlo. apply Z.leb_le in Hhi.
  pose proof (@ord2ymd_spec (total / (86400 * 1000000)) ltac:(lia)) as Hord.
  destruct (Calendar.ord2ymd (total / (86400 * 1000000))) as [[y m] d].
  destruct Hord as (Hymd & Hm & Hd & Hy1 & Hy2).
  specialize (Hy2 Hhi). unfold Calendar.MAXYEAR in Hy2.
  intros [= <-]. split.
  - unfold wall_us, US_PER_SECOND. cbn [year month day hour minute second microsecond].
    rewrite Hymd. clearbody total. clear.
    Z.to_euclidean_division_equations; lia.
  - unfold wall_ok, Calendar.MINYEAR, Calendar.MAXYEAR.
    cbn [year month day hour minute second microsecond].
    rewrite !andb_true_iff, !Z.leb_le.
    clearbody total. clear Hymd Hlo Hhi.
    repeat split; try lia; Z.to_euclidean_division_equations; lia.
Qed.

Lemma timezone_fromutc_sound (ident : N) (offset : Z)
  (H : offset_ok offset = true) :
  fromutc_sound (timezone ident offset H).
Proof.
  intros u w Hw. cbn [timezone tz_fromutc tz_utcoffset] in *.
  apply add_timedelta_us in Hw as [Hus _]. lia.
Qed.

(** ** Timestamps *)

(** X11.  The branch for plain [datetime] values keeps the instant.  A
    value that carries the local zone object itself is written as it is.  A
    value that carries another zone is moved to its UTC reading, handed to
    the [fromutc] of the local zone, and the reading that comes back is
    written with the offset the local zone has at it; for a local zone whose
    [fromutc] is sound, that reading denotes the instant of the input, and
    when it is one a [datetime] can hold, with an offset of whole minutes,
    the text reads back as that reading, that offset and that instant. *)
Theorem generic_datetime_keeps_instant
  (LOCAL_TZ tz : tzinfo) (w : wall) (s : string) :
  fromutc_sound LOCAL_TZ ->
  to_jsonable LOCAL_TZ (VDatetime (Datetime w (Some tz))) = Ok (VStr s) ->
  (tz_ident LOCAL_TZ = tz_ident tz -> s = isoformat (Datetime w (Some tz)))
  /\ (tz_ident LOCAL_TZ <> tz_ident tz ->
      exists u w',
        add_timedelta w (- (tz_utcoffset tz w * US_PER_SECOND)) = Ok u
        /\ wall_us u = wall_us w - tz_utcoffset tz w * US_PER_SECOND
        /\ tz_fromutc LOCAL_TZ u = Ok w'
        /\ s = isoformat (Datetime w' (Some LOCAL_TZ))
        /\ instant_us w' LOCAL_TZ = instant_us w tz
        /\ (wall_ok w' = true ->
            tz_utcoffset LOCAL_TZ w' mod 60 = 0 ->
            ISO8601.parse s = Some (clear_fold w', tz_utcoffset LOCAL_TZ w')
            /\ ISO8601.instant_us (clear_fold w', tz_utcoffset LOCAL_TZ w')
               = instant_us w tz)).
Proof.
  intros Hsound. rewrite to_jsonable_datetime. cbn [dt_wall dt_tzinfo].
  unfold astimezone.
  destruct (N.eqb (tz_ident LOCAL_TZ) (tz_ident tz)) eqn:Hid.
  - cbn [bind]. intros [= <-]. apply N.eqb_eq in Hid.
    split; [ reflexivity | contradiction ].
  - apply N.eqb_neq in Hid.
    destruct (add_timedelta w (- (tz_utcoffset tz w * US_PER_SECOND)))
      as [u | e] eqn:Hu; cbn [bind]; [ | discriminate ].
    destruct (tz_fromutc LOCAL_TZ u) as [w' | e] eqn:Hw'; cbn [bind];
      [ | discriminate ].
    intros [= <-]. split; [ contradiction | ].
    intros _. exists u, w'.
    destruct (add_timedelta_us _ _ Hu) as [Hus _].
    assert (instant_us w' LOCAL_TZ = instant_us w tz) as Hinstant.
    { unfold instant_us. rewrite (Hsound _ _ Hw'). lia. }
    split; [ first [ reflexivity | exact Hu ] | ].
    split; [ lia | ].
    split; [ first [ reflexivity | exact Hw' ] | ].
    split; [ reflexivity | ].
    split; [ exact Hinstant | ].
    intros Hok Hmin. split; [ now apply parse_isoformat | ].
    rewrite <- Hinstant. reflexivity.
Qed.

Lemma generic_datetime_keeps_instant_witness :
  fromutc_sound utc_minus_3
  /\ to_jsonable utc_minus_3 (VDatetime (Datetime noon (Some utc)))
     = Ok (VStr "2024-01-15T09:00:00-03:00")
  /\ tz_ident utc_minus_3 <> tz_ident utc
  /\ exists u w',
       add_timedelta noon (- (tz_utcoffset utc noon * US_PER_SECOND)) = Ok u
       /\ wall_us u = wall_us noon - tz_utcoffset utc noon * US_PER_SECOND
       /\ tz_fromutc utc_minus_3 u = Ok w'
       /\ "2024-01-15T09:00:00-03:00" = isoformat (Datetime w' (Some utc_minus_3))
       /\ instant_us w' utc_minus_3 = instant_us noon utc
       /\ (wall_ok w' = true ->
           tz_utcoffset utc_minus_3 w' mod 60 = 0 ->
           ISO8601.parse "2024-01-15T09:00:00-03:00"
           = Some (clear_fold w', tz_utcoffset utc_minus_3 w')
           /\ ISO8601.instant_us (clear_fold w', tz_utcoffset utc_minus_3 w')
              = instant_us noon utc).
Proof.
  split; [ apply timezone_fromutc_sound | ].
  split; [ vm_compute; reflexivity | ].
  split; [ discriminate | ].
  apply (proj2 (@generic_datetime_keeps_instant utc_minus_3 utc noon
                  "2024-01-15T09:00:00-03:00"
                  (timezone_fromutc_sound 2 (-10800) eq_refl)
                  ltac:(vm_compute; reflexivity))).
  discriminate.
Defined.

(** X12.  A timestamp of the store's class is normalised to the ISO text of
    its own wall-clock fields with the offset the local zone has at that
    reading, whatever zone and whatever nanoseconds the value carries; when
    it carries a zone, the instant the text denotes is the instant of the
    value moved by the difference of the two offsets.  This is for a local
    offset of whole minutes. *)
Theorem native_timestamp_output
  (LOCAL_TZ : tzinfo) (w : wall) (zone : option tzinfo) (ns : Z) :
  wall_ok w = true ->
  tz_utcoffset LOCAL_TZ w mod 60 = 0 ->
  exists s,
    to_jsonable LOCAL_TZ (VDatetimeWithNanoseconds (Datetime w zone) ns)
    = Ok (VStr s)
    /\ ISO8601.parse s = Some (clear_fold w, tz_utcoffset LOCAL_TZ w)
    /\ forall tz,
         zone = Some tz ->
         ISO8601.instant_us (clear_fold w, tz_utcoffset LOCAL_TZ w)
         = instant_us w tz
           + (tz_utcoffset tz w - tz_utcoffset LOCAL_TZ w) * US_PER_SECOND.
Proof.
  intros Hok Hmin.
  exists (isoformat (Datetime w (Some LOCAL_TZ))).
  split; [ reflexivity | split ].
  - now apply parse_isoformat.
  - intros tz _. unfold ISO8601.instant_us, instant_us. cbn [fst snd].
    change (wall_us (clear_fold w)) with (wall_us w). lia.
Qed.

Lemma native_timestamp_output_witness :
  wall_ok noon = true
  /\ tz_utcoffset utc_minus_3 noon mod 60 = 0
  /\ exists s,
       to_jsonable utc_minus_3
         (VDatetimeWithNanoseconds (Datetime noon (Some utc)) 999)
       = Ok (VStr s)
       /\ ISO8601.parse s = Some (clear_fold noon, tz_utcoffset utc_minus_3 noon)
       /\ forall tz,
            Some utc = Some tz ->
            ISO8601.instant_us (clear_fold noon, tz_utcoffset utc_minus_3 noon)
            = instant_us noon tz
              + (tz_utcoffset tz noon - tz_utcoffset utc_minus_3 noon)
                * US_PER_SECOND.
Proof.
  split; [ reflexivity | split; [ reflexivity | ] ].
  apply (@native_timestamp_output utc_minus_3 noon (Some utc) 999); reflexivity.
Defined.

(** ** Start-up *)

Lemma lstrip_space_nil (s : pystr) :
  lstrip_space s = [] <-> forallb is_space s = true.
Proof.
  induction s as [ | c s IH ]; [ now split | ].
  simpl. destruct (is_space c); [ exact IH | ].
  split; discriminate.
Qed.

Lemma lstrip_space_all (s : pystr) :
  forallb is_space (lstrip_space s) = true -> lstrip_space s = [].
Proof.
  induction s as [ | c s IH ]; [ reflexivity | ].
  simpl. destruct (is_space c) eqn:Hc; [ exact IH | ].
  simpl. rewrite Hc. discriminate.
Qed.

Lemma forallb_rev (A : Type) (p : A -> bool) (l : list A) :
  forallb p (rev l) = forallb p l.
Proof.
  destruct (forallb p l) eqn:H.
  - rewrite forallb_forall in *. intros x Hx. apply H. now apply in_rev.
  - destruct (forallb p (rev l)) eqn:H'; [ | reflexivity ].
    rewrite <- H. symmetry. rewrite forallb_forall in *.
    intros x Hx. apply H'. now apply in_rev in Hx.
Qed.

Lemma strip_space_nil (s : pystr) :
  strip_space s = [] <-> forallb is_space s = true.
Proof.
  unfold strip_space. split.
  - intros H. apply (f_equal (@rev N)) in H. rewrite rev_involutive in H.
    simpl in H. apply lstrip_space_nil in H. rewrite forallb_rev in H.
    apply lstrip_space_all in H. now apply lstrip_space_nil.
  - intros H. apply lstrip_space_nil in H. now rewrite H.
Qed.

(** X13.  With no application registered, [init_firebase] raises its
    [RuntimeError] exactly when the key is missing from the environment or
    made of white space only; no certificate is read in that case. *)
Theorem init_firebase_missing_key
  (credential load_error : Type)
  (load_certificate : pystr -> credential + load_error)
  (environ : string -> option pystr) :
  init_firebase load_certificate environ []
  = Failed _
      (RuntimeError _
         "❌  FIREBASE_KEY_B64 no está definida en las variables de entorno.")
  <-> forallb is_space (getenv environ "FIREBASE_KEY_B64" []) = true.
Proof.
  unfold init_firebase. rewrite <- strip_space_nil.
  destruct (strip_space (getenv environ "FIREBASE_KEY_B64" []))
    as [ | c rest ]; [ now split | ].
  split; [ | discriminate ].
  destruct (load_certificate (c :: rest)); discriminate.
Qed.

Lemma init_firebase_missing_key_witness :
  forallb is_space (getenv blank_environ "FIREBASE_KEY_B64" []) = true
  /\ init_firebase take_any blank_environ []
     = Failed _
         (RuntimeError _
            "❌  FIREBASE_KEY_B64 no está definida en las variables de entorno.")
  /\ init_firebase take_any (fun _ => None) []
     = Failed _
         (RuntimeError _
            "❌  FIREBASE_KEY_B64 no está definida en las variables de entorno.").
Proof.
  split; [ reflexivity | split ].
  - apply (proj2 (init_firebase_missing_key take_any blank_environ)).
    reflexivity.
  - apply (proj2 (init_firebase_missing_key take_any (fun _ => None))).
    reflexivity.
Defined.

(** X14.  [init_firebase] initialises once: when it returns, an application
    is registered, and any later call, with any environment, returns with
    the registry unchanged; and it never raises the [ValueError] of a second
    initialisation.  The certificate is read from the key without the
    white space around it. *)
Theorem init_firebase_once
  (credential load_error : Type)
  (load_certificate : pystr -> credential + load_error)
  (environ : string -> option pystr) (registry : apps credential) :
  (forall registry',
      init_firebase load_certificate environ registry = Started load_error registry' ->
      registry' <> []
      /\ (registry = [] ->
          exists cred,
            load_certificate
              (strip_space (getenv environ "FIREBASE_KEY_B64" []))
            = inl cred
            /\ registry' = [(DEFAULT_APP_NAME, cred)])
      /\ forall load_certificate' environ',
           init_firebase (load_error := load_error) load_certificate' environ'
             registry'
           = Started load_error registry')
  /\ init_firebase load_certificate environ registry <> Failed _ (ValueError _).
Proof.
  unfold init_firebase.
  destruct registry as [ | app rest ].
  - destruct (strip_space (getenv environ "FIREBASE_KEY_B64" []))
      as [ | c b64 ]; [ split; [ discriminate | discriminate ] | ].
    destruct (load_certificate (c :: b64)) as [cred | e];
      [ | split; discriminate ].
    unfold initialize_app. cbn [existsb app].
    split; [ | discriminate ].
    intros registry' [= <-].
    split; [ discriminate | split; [ | reflexivity ] ].
    intros _. now exists cred.
  - split; [ | discriminate ].
    intros registry' [= <-].
    split; [ discriminate | split; [ discriminate | reflexivity ] ].
Qed.

Lemma init_firebase_once_witness :
  init_firebase take_any keyed_environ []
  = Started unit [(DEFAULT_APP_NAME, [101; 121]%N)]
  /\ init_firebase take_any blank_environ [(DEFAULT_APP_NAME, [101; 121]%N)]
     = Started unit [(DEFAULT_APP_NAME, [101; 121]%N)].
Proof.
  split; [ reflexivity | ].
  destruct (proj1 (init_firebase_once take_any keyed_environ []) _ eq_refl)
    as (_ & _ & Hlater).
  exact (Hlater take_any blank_environ).
Defined.

(** X15.  Converting a plain [datetime] to another zone object goes through
    the UTC reading: when that reading falls before the first day of year 1
    or after the last day of year 9999 the normaliser raises
    [OverflowError]; otherwise the UTC reading exists, is the input moved by
    its offset, and the outcome is that of the local zone's [fromutc] on
    it. *)
Theorem generic_datetime_out_of_range
  (LOCAL_TZ tz : tzinfo) (w : wall) :
  tz_ident LOCAL_TZ <> tz_ident tz ->
  (wall_us w - tz_utcoffset tz w * US_PER_SECOND < US_PER_DAY
   \/ (Calendar.MAXORDINAL + 1) * US_PER_DAY
      <= wall_us w - tz_utcoffset tz w * US_PER_SECOND ->
   to_jsonable LOCAL_TZ (VDatetime (Datetime w (Some tz)))
   = Raise OverflowError)
  /\ (US_PER_DAY <= wall_us w - tz_utcoffset tz w * US_PER_SECOND
                 < (Calendar.MAXORDINAL + 1) * US_PER_DAY ->
      exists u,
        wall_us u = wall_us w - tz_utcoffset tz w * US_PER_SECOND
        /\ wall_ok u = true
        /\ to_jsonable LOCAL_TZ (VDatetime (Datetime w (Some tz)))
           = (w' <- tz_fromutc LOCAL_TZ u ;;
              Ok (VStr (isoformat (Datetime w' (Some LOCAL_TZ)))))).
Proof.
  intros Hid. apply N.eqb_neq in Hid.
  rewrite to_jsonable_datetime. cbn [dt_wall dt_tzinfo].
  unfold astimezone. rewrite Hid.
  split.
  - intros Hout. unfold add_timedelta.
    replace (wall_us w + - (tz_utcoffset tz w * US_PER_SECOND))
      with (wall_us w - tz_utcoffset tz w * US_PER_SECOND) by lia.
    set (t := wall_us w - tz_utcoffset tz w * US_PER_SECOND) in *.
    clearbody t.
    destruct ((0 <? t / US_PER_DAY) && (t / US_PER_DAY <=? Calendar.MAXORDINAL))
      eqn:Hrange; [ | reflexivity ].
    exfalso. apply andb_true_iff in Hrange as [Hlo Hhi].
    apply Z.ltb_lt in Hlo. apply Z.leb_le in Hhi.
    unfold US_PER_DAY, US_PER_SECOND, Calendar.MAXORDINAL in *.
    Z.to_euclidean_division_equations; lia.
  - intros Hin.
    destruct (add_timedelta w (- (tz_utcoffset tz w * US_PER_SECOND)))
      as [u | e] eqn:Hu.
    + exists u. destruct (add_timedelta_us _ _ Hu) as [Hus Hok].
      split; [ lia | split; [ exact Hok | ] ].
      cbn [bind]. destruct (tz_fromutc LOCAL_TZ u); reflexivity.
    + exfalso. unfold add_timedelta in Hu.
      replace (wall_us w + - (tz_utcoffset tz w * US_PER_SECOND))
        with (wall_us w - tz_utcoffset tz w * US_PER_SECOND) in Hu by lia.
      set (t := wall_us w - tz_utcoffset tz w * US_PER_SECOND) in *.
      clearbody t.
      destruct ((0 <? t / US_PER_DAY) && (t / US_PER_DAY <=? Calendar.MAXORDINAL))
        eqn:Hrange.
      * destruct (Calendar.ord2ymd (t / US_PER_DAY)) as [[y m] d].
        discriminate Hu.
      * apply andb_false_iff in Hrange.
        unfold US_PER_DAY, US_PER_SECOND, Calendar.MAXORDINAL in *.
        destruct Hrange as [Hlo | Hhi];
          [ apply Z.ltb_ge in Hlo | apply Z.leb_gt in Hhi ];
          Z.to_euclidean_division_equations; lia.
Qed.

Lemma generic_datetime_out_of_range_witness :
  tz_ident utc_minus_3 <> tz_ident utc_plus_1
  /\ wall_us first_reading - tz_utcoffset utc_plus_1 first_reading * US_PER_SECOND
     < US_PER_DAY
  /\ to_jsonable utc_minus_3 (VDatetime (Datetime first_reading (Some utc_plus_1)))
     = Raise OverflowError.
Proof.
  split; [ discriminate | split; [ reflexivity | ] ].
  apply (proj1 (@generic_datetime_out_of_range utc_minus_3 utc_plus_1
                  first_reading ltac:(discriminate))).
  left. reflexivity.
Defined.
